(** * Semantic keyword grouper: cache-fronted classification pipeline

    A shallow embedding of [db_utils.py], [llm_utils.py] and the keyword
    processing loop of [app.py], with the properties of the specification
    stated and settled against it.

    Conventions of the embedding.
    - A Python [str] is the list of its code points ([pystr]); texts are
      sequences of Unicode scalar values, as the form widgets, the CSV
      decoder and the language list deliver them.
    - A Python [int] is a [Z]; a [bytes] value is a list of [Z] in 0..255.
    - Code that touches the sqlite table, prints or calls a vendor API is
      written in a state-and-exception monad over [World].
    - The sqlite file is taken to be reachable; the table itself may be
      missing, in which case every statement raises [OperationalError].
    - A vendor wrapper of [llm_utils.py] ([call_openai_api] and its
      siblings) is represented by what it gives back to its caller: the SDK
      request and the JSON extraction inside it are not unfolded.
    - Streamlit display calls (progress bar, status line, [st.error],
      [st.warning]) and the half-second [time.sleep] do not feed back into
      the computation and are left out. *)

From Stdlib Require Import Ascii String.
From Stdlib Require Import List ZArith NArith Lia Bool.
From Stdlib Require Import Permutation Sorted FinFun.
Import ListNotations.

Set Implicit Arguments.

(* ================================================================== *)
(** * Python text *)

Module Text.

Definition pystr := list N.

(** A string literal of the source (ASCII). *)
Definition text (s : string) : pystr :=
  map N_of_ascii (list_ascii_of_string s).

Fixpoint pystr_eqb (a b : pystr) : bool :=
  match a, b with
  | [], [] => true
  | x :: a', y :: b' => N.eqb x y && pystr_eqb a' b'
  | _, _ => false
  end.

(** [str.isspace] for one code point (CPython's [_PyUnicode_IsWhitespace]). *)
Definition is_whitespace (c : N) : bool :=
  ((0x09 <=? c) && (c <=? 0x0D) ||
   (0x1C <=? c) && (c <=? 0x20) ||
   (c =? 0x85) || (c =? 0xA0) || (c =? 0x1680) ||
   (0x2000 <=? c) && (c <=? 0x200A) ||
   (c =? 0x2028) || (c =? 0x2029) || (c =? 0x202F) ||
   (c =? 0x205F) || (c =? 0x3000))%N.

Fixpoint lstrip (s : pystr) : pystr :=
  match s with
  | c :: s' => if is_whitespace c then lstrip s' else s
  | [] => []
  end.

Definition rstrip (s : pystr) : pystr := rev (lstrip (rev s)).

(** [s.strip()] *)
Definition strip (s : pystr) : pystr := rstrip (lstrip s).

(** [a or b] on strings: the empty string is falsy. *)
Definition str_or (a b : pystr) : pystr :=
  match a with [] => b | _ => a end.

(** Lexicographic comparison by code point, which is also the order of the
    UTF-8 encodings (sqlite's BINARY collation). *)
Fixpoint str_compare (a b : pystr) : comparison :=
  match a, b with
  | [], [] => Eq
  | [], _ :: _ => Lt
  | _ :: _, [] => Gt
  | x :: a', y :: b' =>
      match N.compare x y with
      | Eq => str_compare a' b'
      | c => c
      end
  end.

Definition str_leb (a b : pystr) : bool :=
  match str_compare a b with Gt => false | _ => true end.

(** Decimal digits of a non-negative number, most significant first. *)
Fixpoint digits_fuel (fuel : nat) (n : N) (acc : pystr) : pystr :=
  match fuel with
  | O => acc
  | S f =>
      let acc' := (48 + n mod 10)%N :: acc in
      if (n <? 10)%N then acc' else digits_fuel f (n / 10)%N acc'
  end.

(** [str(z)] for a Python int. *)
Definition str_of_int (z : Z) : pystr :=
  let n := Z.to_N (Z.abs z) in
  let ds := digits_fuel (S (N.to_nat (N.log2 n))) n [] in
  if (z <? 0)%Z then 45%N :: ds else ds.

(** [s.encode('utf-8')], character by character.  The built-in raises
    [UnicodeEncodeError] on a lone surrogate, and a [str] holds no code
    point above U+10FFFF: [encode_utf8] is the built-in on the texts that
    [valid_text] accepts, and only there. *)
Definition utf8_char (c : N) : list Z :=
  let z := Z.of_N c in
  if (z <? 0x80)%Z then [z]
  else if (z <? 0x800)%Z then
    [Z.lor 0xC0 (Z.shiftr z 6);
     Z.lor 0x80 (Z.land z 0x3F)]
  else if (z <? 0x10000)%Z then
    [Z.lor 0xE0 (Z.shiftr z 12);
     Z.lor 0x80 (Z.land (Z.shiftr z 6) 0x3F);
     Z.lor 0x80 (Z.land z 0x3F)]
  else
    [Z.lor 0xF0 (Z.shiftr z 18);
     Z.lor 0x80 (Z.land (Z.shiftr z 12) 0x3F);
     Z.lor 0x80 (Z.land (Z.shiftr z 6) 0x3F);
     Z.lor 0x80 (Z.land z 0x3F)].

Definition encode_utf8 (s : pystr) : list Z := flat_map utf8_char s.

Definition is_scalar_value (c : N) : bool :=
  ((c <? 0xD800) || (0xDFFF <? c))%N && (c <? 0x110000)%N.

Definition valid_text (s : pystr) : bool := forallb is_scalar_value s.

End Text.
Import Text.

(* ================================================================== *)
(** * SHA-256 ([hashlib.sha256], FIPS 180-4) on 32-bit words held in [Z] *)

Module SHA256.
Local Open Scope Z_scope.

Definition wrap (x : Z) : Z := x mod 4294967296.
Definition add32 (x y : Z) : Z := wrap (x + y).
Definition rotr (n x : Z) : Z :=
  Z.lor (Z.shiftr x n) (wrap (Z.shiftl x (32 - n))).
Definition not32 (x : Z) : Z := 4294967295 - x.

Definition Ch (x y z : Z) := Z.lxor (Z.land x y) (Z.land (not32 x) z).
Definition Maj (x y z : Z) :=
  Z.lxor (Z.lxor (Z.land x y) (Z.land x z)) (Z.land y z).
Definition bsig0 x := Z.lxor (Z.lxor (rotr 2 x) (rotr 13 x)) (rotr 22 x).
Definition bsig1 x := Z.lxor (Z.lxor (rotr 6 x) (rotr 11 x)) (rotr 25 x).
Definition ssig0 x := Z.lxor (Z.lxor (rotr 7 x) (rotr 18 x)) (Z.shiftr x 3).
Definition ssig1 x := Z.lxor (Z.lxor (rotr 17 x) (rotr 19 x)) (Z.shiftr x 10).

(** The first 32 bits of the fractional parts of the cube roots of the
    first 64 primes. *)
Definition round_constants : list Z :=
  [1116352408; 1899447441; 3049323471; 3921009573; 961987163; 1508970993;
   2453635748; 2870763221; 3624381080; 310598401; 607225278; 1426881987;
   1925078388; 2162078206; 2614888103; 3248222580; 3835390401; 4022224774;
   264347078; 604807628; 770255983; 1249150122; 1555081692; 1996064986;
   2554220882; 2821834349; 2952996808; 3210313671; 3336571891; 3584528711;
   113926993; 338241895; 666307205; 773529912; 1294757372; 1396182291;
   1695183700; 1986661051; 2177026350; 2456956037; 2730485921; 2820302411;
   3259730800; 3345764771; 3516065817; 3600352804; 4094571909; 275423344;
   430227734; 506948616; 659060556; 883997877; 958139571; 1322822218;
   1537002063; 1747873779; 1955562222; 2024104815; 2227730452; 2361852424;
   2428436474; 2756734187; 3204031479; 3329325298].

(** The chaining value: eight words. *)
Record chain := Chain { ha : Z; hb : Z; hc : Z; hd : Z;
                        he : Z; hf : Z; hg : Z; hh : Z }.

(** The first 32 bits of the fractional parts of the square roots of the
    first 8 primes. *)
Definition initial_chain : chain :=
  Chain 1779033703 3144134277 1013904242 2773480762
        1359893119 2600822924 528734635 1541459225.

(** Padding: a 1 bit, zeros up to 56 mod 64 bytes, the bit length on 8 bytes. *)
Definition be_bytes (count : nat) (x : Z) : list Z :=
  map (fun i => Z.land (Z.shiftr x (8 * Z.of_nat (count - 1 - i))) 255)
      (seq 0 count).

Definition pad (msg : list Z) : list Z :=
  let len := Z.of_nat (length msg) in
  let zeros := Z.to_nat ((55 - len) mod 64) in
  msg ++ 0x80 :: repeat 0 zeros ++ be_bytes 8 ((8 * len) mod 2 ^ 64).

(** Big-endian words of a byte string. *)
Fixpoint words_of (bytes : list Z) : list Z :=
  match bytes with
  | b0 :: b1 :: b2 :: b3 :: rest =>
      (((b0 * 256 + b1) * 256 + b2) * 256 + b3) :: words_of rest
  | _ => []
  end.

(** The message schedule, kept most recent word first while it grows. *)
Fixpoint extend_schedule (n : nat) (rev_w : list Z) : list Z :=
  match n with
  | O => rev_w
  | S n' =>
      let w :=
        add32 (add32 (add32 (ssig1 (nth 1 rev_w 0)) (nth 6 rev_w 0))
                     (ssig0 (nth 14 rev_w 0)))
              (nth 15 rev_w 0) in
      extend_schedule n' (w :: rev_w)
  end.

Definition schedule (block : list Z) : list Z :=
  rev (extend_schedule 48 (rev block)).

Definition round (s : chain) (kw : Z * Z) : chain :=
  let (k, w) := kw in
  let t1 := add32 (add32 (add32 (add32 (hh s) (bsig1 (he s)))
                                (Ch (he s) (hf s) (hg s))) k) w in
  let t2 := add32 (bsig0 (ha s)) (Maj (ha s) (hb s) (hc s)) in
  Chain (add32 t1 t2) (ha s) (hb s) (hc s)
        (add32 (hd s) t1) (he s) (hf s) (hg s).

Definition compress (h : chain) (block : list Z) : chain :=
  let s := fold_left round (combine round_constants (schedule block)) h in
  Chain (add32 (ha h) (ha s)) (add32 (hb h) (hb s))
        (add32 (hc h) (hc s)) (add32 (hd h) (hd s))
        (add32 (he h) (he s)) (add32 (hf h) (hf s))
        (add32 (hg h) (hg s)) (add32 (hh h) (hh s)).

(** Sixteen-word blocks, in order. *)
Fixpoint blocks (count : nat) (ws : list Z) : list (list Z) :=
  match count with
  | O => []
  | S c => firstn 16 ws :: blocks c (skipn 16 ws)
  end.

Definition chain_of (msg : list Z) : chain :=
  let ws := words_of (pad msg) in
  fold_left compress (blocks (length ws / 16) ws) initial_chain.

Definition word (x : Z) : Prop := 0 <= x < 4294967296.

Definition chain_words (h : chain) : Prop :=
  word (ha h) /\ word (hb h) /\ word (hc h) /\ word (hd h) /\
  word (he h) /\ word (hf h) /\ word (hg h) /\ word (hh h).

(** The 256-bit digest as one number, first word most significant. *)
Definition pack (h : chain) : Z :=
  fold_left (fun acc w => acc * 4294967296 + w)
            [ha h; hb h; hc h; hd h; he h; hf h; hg h; hh h] 0.

Definition digest (msg : list Z) : Z := pack (chain_of msg).

Definition hex_digit (d : Z) : N :=
  Z.to_N (if d <? 10 then 48 + d else 87 + d).

Definition is_lower_hex (c : N) : bool :=
  ((48 <=? c) && (c <=? 57) || (97 <=? c) && (c <=? 102))%N.

(** [.hexdigest()]: 64 lowercase hexadecimal digits. *)
Definition hexdigest (msg : list Z) : pystr :=
  let d := digest msg in
  map (fun i => hex_digit (Z.land (Z.shiftr d (4 * Z.of_nat (63 - i))) 15))
      (seq 0 64).

End SHA256.

(** [get_prompt_hash(prompt_text)] *)
Definition get_prompt_hash (prompt_text : pystr) : pystr :=
  SHA256.hexdigest (encode_utf8 prompt_text).

(* ================================================================== *)
(** * Python values, exceptions and results *)

(** A dict with string keys, in insertion order; a key is looked up at its
    first entry. *)
Definition dict (V : Type) := list (pystr * V).

Fixpoint dict_get {V : Type} (d : dict V) (key : pystr) : option V :=
  match d with
  | [] => None
  | (k, v) :: d' => if pystr_eqb k key then Some v else dict_get d' key
  end.

(** [key in d] *)
Definition dict_in {V : Type} (key : pystr) (d : dict V) : bool :=
  match dict_get d key with Some _ => true | None => false end.

(** [d.get(key, default)] *)
Definition dict_get_default {V : Type} (d : dict V) (key : pystr) (default : V) : V :=
  match dict_get d key with Some v => v | None => default end.

(** What [json.loads] can return, and [None].  A float is carried as its
    [repr] (such as [1.5], [1e+16], [nan]). *)
#[local] Set Warnings "-register-all".
Inductive pyval :=
| PyNone
| PyBool (b : bool)
| PyInt (z : Z)
| PyFloat (repr : pystr)
| PyStr (s : pystr)
| PyList (items : list pyval)
| PyDict (entries : list (pystr * pyval)).

(** [bool(v)] *)
Definition truthy (v : pyval) : bool :=
  match v with
  | PyNone => false
  | PyBool b => b
  | PyInt z => negb (z =? 0)%Z
  | PyFloat r => negb (pystr_eqb r (text "0.0") || pystr_eqb r (text "-0.0"))
  | PyStr s => match s with [] => false | _ => true end
  | PyList l => match l with [] => false | _ => true end
  | PyDict d => match d with [] => false | _ => true end
  end.

(** [isinstance(v, dict)] *)
Definition is_dict (v : pyval) : bool :=
  match v with PyDict _ => true | _ => false end.

(** [sep.join(parts)] *)
Fixpoint join (sep : pystr) (parts : list pystr) : pystr :=
  match parts with
  | [] => []
  | [p] => p
  | p :: ps => p ++ sep ++ join sep ps
  end.

(** An exception object: its class and what [str(e)] gives. *)
Record exn := Exn { exn_class : pystr; exn_str : pystr }.

Definition ValueError (msg : pystr) : exn := Exn (text "ValueError") msg.
(** [str(KeyError(name))] is the [repr] of the key; for a plain ASCII
    identifier that is the name between single quotes. *)
Definition KeyError_ident (name : pystr) : exn :=
  Exn (text "KeyError") (text "'" ++ name ++ text "'").
Definition IntegrityError (msg : pystr) : exn := Exn (text "IntegrityError") msg.
Definition OperationalError (msg : pystr) : exn :=
  Exn (text "OperationalError") msg.
Definition DatabaseError (msg : pystr) : exn := Exn (text "DatabaseError") msg.

Inductive result (A : Type) :=
| Return (a : A)
| Raise (e : exn).
Arguments Return {A} a.
Arguments Raise {A} e.

(* ================================================================== *)
(** * Program state *)

(** One row of table [keyword_groups]. *)
Record Row := {
  id : Z;
  keyword : pystr;
  language : pystr;
  prompt_hash : pystr;
  main_cat : pystr;
  sub_cat_1 : pystr;
  sub_cat_2 : pystr;
  semantic_theme : pystr;
  date_added : pystr
}.

Inductive vendor := OpenAI | Gemini | Claude | Mistral.

(** A pandas DataFrame of text cells. *)
Record DataFrame := { columns : list pystr; rows : list (list pystr) }.

(** Everything the program reads and writes:
    the sqlite table ([None] while it does not exist), what was printed,
    the vendor_calls sent to vendor APIs, how often the clock was read, and the
    variables of the processing run in [app.py]. *)
Record World := {
  keyword_groups : option (list Row);
  stdout : list pystr;
  vendor_calls : list (vendor * pystr);
  clock_reads : nat;
  results : list (dict pystr);
  processed_count : Z;
  errors : Z;
  llm_calls : Z;
  cache_hits : Z
}.

Definition set_keyword_groups (t : option (list Row)) (w : World) : World :=
  {| keyword_groups := t; stdout := stdout w; vendor_calls := vendor_calls w;
     clock_reads := clock_reads w; results := results w;
     processed_count := processed_count w; errors := errors w;
     llm_calls := llm_calls w; cache_hits := cache_hits w |}.

Definition set_stdout (o : list pystr) (w : World) : World :=
  {| keyword_groups := keyword_groups w; stdout := o; vendor_calls := vendor_calls w;
     clock_reads := clock_reads w; results := results w;
     processed_count := processed_count w; errors := errors w;
     llm_calls := llm_calls w; cache_hits := cache_hits w |}.

Definition set_vendor_calls (r : list (vendor * pystr)) (w : World) : World :=
  {| keyword_groups := keyword_groups w; stdout := stdout w; vendor_calls := r;
     clock_reads := clock_reads w; results := results w;
     processed_count := processed_count w; errors := errors w;
     llm_calls := llm_calls w; cache_hits := cache_hits w |}.

Definition set_clock_reads (n : nat) (w : World) : World :=
  {| keyword_groups := keyword_groups w; stdout := stdout w;
     vendor_calls := vendor_calls w; clock_reads := n; results := results w;
     processed_count := processed_count w; errors := errors w;
     llm_calls := llm_calls w; cache_hits := cache_hits w |}.

Definition set_results (r : list (dict pystr)) (w : World) : World :=
  {| keyword_groups := keyword_groups w; stdout := stdout w;
     vendor_calls := vendor_calls w; clock_reads := clock_reads w; results := r;
     processed_count := processed_count w; errors := errors w;
     llm_calls := llm_calls w; cache_hits := cache_hits w |}.

Definition set_processed_count (n : Z) (w : World) : World :=
  {| keyword_groups := keyword_groups w; stdout := stdout w;
     vendor_calls := vendor_calls w; clock_reads := clock_reads w;
     results := results w; processed_count := n; errors := errors w;
     llm_calls := llm_calls w; cache_hits := cache_hits w |}.

Definition set_errors (n : Z) (w : World) : World :=
  {| keyword_groups := keyword_groups w; stdout := stdout w;
     vendor_calls := vendor_calls w; clock_reads := clock_reads w;
     results := results w; processed_count := processed_count w; errors := n;
     llm_calls := llm_calls w; cache_hits := cache_hits w |}.

Definition set_llm_calls (n : Z) (w : World) : World :=
  {| keyword_groups := keyword_groups w; stdout := stdout w;
     vendor_calls := vendor_calls w; clock_reads := clock_reads w;
     results := results w; processed_count := processed_count w;
     errors := errors w; llm_calls := n; cache_hits := cache_hits w |}.

Definition set_cache_hits (n : Z) (w : World) : World :=
  {| keyword_groups := keyword_groups w; stdout := stdout w;
     vendor_calls := vendor_calls w; clock_reads := clock_reads w;
     results := results w; processed_count := processed_count w;
     errors := errors w; llm_calls := llm_calls w; cache_hits := n |}.

(** ** The state-and-exception monad *)

Definition M (A : Type) := World -> result A * World.

Definition ret {A : Type} (a : A) : M A := fun w => (Return a, w).
Definition raise {A : Type} (e : exn) : M A := fun w => (Raise e, w).

Definition bind {A B : Type} (m : M A) (k : A -> M B) : M B :=
  fun w =>
    match m w with
    | (Return a, w') => k a w'
    | (Raise e, w') => (Raise e, w')
    end.

Declare Scope py_scope.
Delimit Scope py_scope with py.
Notation "x <- m ;; k" := (bind m (fun x => k))
  (at level 61, m at next level, right associativity) : py_scope.
Notation "m ;; k" := (bind m (fun _ => k))
  (at level 61, right associativity) : py_scope.
Open Scope py_scope.

(** [try: body  except Exception as e: handler(e)] *)
Definition try_except {A : Type} (body : M A) (handler : exn -> M A) : M A :=
  fun w =>
    match body w with
    | (Return a, w') => (Return a, w')
    | (Raise e, w') => handler e w'
    end.

(** [try: body  except cls: handler] for one exception class. *)
Definition try_except_class {A : Type} (body : M A) (cls : pystr)
    (handler : exn -> M A) : M A :=
  fun w =>
    match body w with
    | (Return a, w') => (Return a, w')
    | (Raise e, w') =>
        if pystr_eqb (exn_class e) cls then handler e w' else (Raise e, w')
    end.

Definition get {A : Type} (f : World -> A) : M A := fun w => (Return (f w), w).
Definition modify (f : World -> World) : M unit := fun w => (Return tt, f w).

(** [for x in xs: body(x)] *)
Fixpoint for_each {A : Type} (xs : list A) (body : A -> M unit) : M unit :=
  match xs with
  | [] => ret tt
  | x :: xs' => body x ;; for_each xs' body
  end.

(** [print(line)] *)
Definition print (line : pystr) : M unit :=
  modify (fun w => set_stdout (stdout w ++ [line]) w).

(* ================================================================== *)
(** * Concrete collaborators and inputs for the examples *)

Module Scenario.

Definition dq : pystr := [34%N].
Definition nl : pystr := [10%N].

(** The default of [DEFAULT_LLM_PROMPT] in [app.py]. *)
Definition default_prompt : pystr :=
  text "Analyze the following keyword: '{keyword}' (Language: {language})." ++ nl ++
  text "1. Determine the core semantic theme or user intent behind searching for this keyword." ++ nl ++
  text "2. Categorize the keyword into a 3-level hierarchy: Main Category, Sub Category 1, Sub Category 2. These categories should reflect the semantic grouping. Ensure all levels are populated, using 'General' or 'N/A' if a level isn't clearly distinct, but avoid leaving them blank." ++ nl ++
  text "3. Provide the output ONLY in the following JSON format, ensuring no extra text before or after the JSON block:" ++ nl ++
  text "{{" ++ nl ++
  text "  " ++ dq ++ text "main_cat" ++ dq ++ text ": " ++ dq ++ text "..." ++ dq ++ text "," ++ nl ++
  text "  " ++ dq ++ text "sub_cat_1" ++ dq ++ text ": " ++ dq ++ text "..." ++ dq ++ text "," ++ nl ++
  text "  " ++ dq ++ text "sub_cat_2" ++ dq ++ text ": " ++ dq ++ text "..." ++ dq ++ text "," ++ nl ++
  text "  " ++ dq ++ text "semantic_theme" ++ dq ++ text ": " ++ dq ++ text "..." ++ dq ++ nl ++
  text "}}".

(** [repr] of a string of printable ASCII without quotes or backslashes. *)
Definition repr_str (s : pystr) : pystr := text "'" ++ s ++ text "'".

(** No template of the examples has a replacement field beyond a plain
    name, so this is never consulted. *)
Definition format_ext (_ _ _ : pystr) : result pystr :=
  Raise (Exn (text "NotImplementedError") (text "replacement field")).

Definition clock (n : nat) : pystr :=
  text "2025-04-10 09:30:" ++ str_of_int (Z.of_nat (10 + n)).

Definition shoes_reply : pyval :=
  PyDict [(text "main_cat", PyStr (text "Apparel"));
          (text "sub_cat_1", PyStr (text " Footwear "));
          (text "sub_cat_2", PyStr (text "  "));
          (text "semantic_theme", PyStr (text "Buying running shoes"))].

(** A response with a key beyond the four required ones. *)
Definition five_key_reply : pyval :=
  PyDict [(text "main_cat", PyStr (text "Apparel"));
          (text "sub_cat_1", PyStr (text "Footwear"));
          (text "sub_cat_2", PyStr (text "Running"));
          (text "semantic_theme", PyStr (text "Buying running shoes"));
          (text "confidence", PyInt 9)].

(** Every vendor call answers with the same classification. *)
Definition vendor_always (v : pyval)
    (_ : list (vendor * pystr)) (_ : vendor) (_ : pystr) : result pyval :=
  Return v.

(** The vendor call fails whenever the prompt is [bad_prompt]. *)
Definition vendor_failing_on (bad_prompt : pystr) (e : exn) (v : pyval)
    (_ : list (vendor * pystr)) (_ : vendor) (prompt : pystr) : result pyval :=
  if pystr_eqb prompt bad_prompt then Raise e else Return v.

Definition connection_error : exn :=
  Exn (text "APIConnectionError") (text "Connection error.").

(** A one-line template with both placeholders, one with a misspelt
    placeholder, and a reworded one. *)
Definition short_prompt : pystr := text "Classify '{keyword}' ({language})".
Definition misspelt_prompt : pystr := text "Classify '{keyword}' ({lang})".
Definition other_prompt : pystr := text "Group '{keyword}' ({language})".

Definition english : pystr := text "English".
Definition shoes : pystr := text "running shoes".
Definition socks : pystr := text "wool socks".
Definition boots : pystr := text "hiking boots".

(** The templates whose fingerprints are compared. *)
Definition tested_templates : list pystr :=
  [default_prompt; short_prompt; misspelt_prompt; other_prompt;
   default_prompt ++ text " "].

(** [short_prompt] rendered for [socks] in English. *)
Definition socks_prompt : pystr := text "Classify 'wool socks' (English)".

(** A stored classification of [shoes] under [short_prompt]. *)
Definition shoes_row : Row :=
  {| id := 1; keyword := shoes; language := english;
     prompt_hash := get_prompt_hash short_prompt;
     main_cat := text "Apparel"; sub_cat_1 := text "Footwear";
     sub_cat_2 := text "Detail"; semantic_theme := text "Buying running shoes";
     date_added := text "2025-04-10 09:30:10" |}.

Definition socks_row : Row :=
  {| id := 2; keyword := socks; language := english;
     prompt_hash := get_prompt_hash short_prompt;
     main_cat := text "Apparel"; sub_cat_1 := text "Hosiery";
     sub_cat_2 := text "Wool"; semantic_theme := text "Buying warm socks";
     date_added := text "2025-04-10 09:30:12" |}.

Definition boots_row : Row :=
  {| id := 3; keyword := boots; language := english;
     prompt_hash := get_prompt_hash short_prompt;
     main_cat := text "Outdoor"; sub_cat_1 := text "Footwear";
     sub_cat_2 := text "Hiking"; semantic_theme := text "Buying hiking boots";
     date_added := text "2025-04-10 09:30:11" |}.

(** A freshly initialised store and an idle application. *)
Definition fresh : World :=
  {| keyword_groups := Some []; stdout := []; vendor_calls := [];
     clock_reads := 0; results := []; processed_count := 0; errors := 0;
     llm_calls := 0; cache_hits := 0 |}.

(** A store that holds the classification of [shoes]. *)
Definition cached : World :=
  {| keyword_groups := Some [shoes_row]; stdout := []; vendor_calls := [];
     clock_reads := 1; results := []; processed_count := 0; errors := 0;
     llm_calls := 0; cache_hits := 0 |}.

(** A store that holds three classifications. *)
Definition stocked : World :=
  {| keyword_groups := Some [shoes_row; socks_row; boots_row]; stdout := [];
     vendor_calls := []; clock_reads := 3; results := [];
     processed_count := 0; errors := 0; llm_calls := 0; cache_hits := 0 |}.

End Scenario.

(* ================================================================== *)
(** * utils.py and the input section of app.py *)

Module Utils.

(** A line boundary of [str.splitlines] (the pair CR LF counts once). *)
Definition is_linebreak (c : N) : bool :=
  ((c =? 10) || (c =? 13) || (c =? 11) || (c =? 12) ||
   (c =? 0x1C) || (c =? 0x1D) || (c =? 0x1E) || (c =? 0x85) ||
   (c =? 0x2028) || (c =? 0x2029))%N.

(** [s.splitlines()], with [cur] the line read so far. *)
Fixpoint splitlines_from (s cur : pystr) : list pystr :=
  match s with
  | [] => match cur with [] => [] | _ => [cur] end
  | c :: s' =>
      if (c =? 13)%N then
        match s' with
        | c2 :: s'' =>
            if (c2 =? 10)%N then cur :: splitlines_from s'' []
            else cur :: splitlines_from s' []
        | [] => cur :: splitlines_from s' []
        end
      else if is_linebreak c then cur :: splitlines_from s' []
      else splitlines_from s' (cur ++ [c])
  end.

Definition splitlines (s : pystr) : list pystr := splitlines_from s [].

Definition nonempty (s : pystr) : bool :=
  match s with [] => false | _ => true end.

(** [list(dict.fromkeys(keywords))]: the first occurrence of each string,
    in order; [seen] holds the keys already in the dict. *)
Fixpoint fromkeys (seen keywords : list pystr) : list pystr :=
  match keywords with
  | [] => []
  | kw :: rest =>
      if existsb (pystr_eqb kw) seen then fromkeys seen rest
      else kw :: fromkeys (kw :: seen) rest
  end.

(** The two arguments of [parse_keywords] as one value: the uploaded file
    ([None] when there is none) with source type [csv], the pasted text
    with source type [text], or any other source type. *)
Inductive source :=
| Csv (input_data : option (list Z))
| Text (input_data : pystr)
| OtherSource.

Section ParseKeywords.

(** Lines 17 to 36 for an uploaded file: decoding, [pd.read_csv], the choice
    of the column and [.dropna().astype(str).str.strip().tolist()]; the list
    obtained, or the exception raised on the way. *)
Variable read_keyword_column : list Z -> result (list pystr).

(** [isinstance(e, ValueError)] *)
Variable is_value_error : exn -> bool.

Definition parse_keywords (src : source) : list pystr * option pystr :=
  match src with
  | Csv (Some content) =>
      match read_keyword_column content with
      | Return keywords => (fromkeys [] (filter nonempty keywords), None)
      | Raise e =>
          if is_value_error e then (fromkeys [] [], Some (exn_str e))
          else ([], Some (text "Error reading or parsing CSV: " ++ exn_str e))
      end
  | Text input_data =>
      if nonempty input_data then
        (fromkeys []
           (map strip
              (filter (fun kw => nonempty (strip kw)) (splitlines input_data))),
         None)
      else (fromkeys [] [], None)
  | _ => (fromkeys [] [], None)
  end.

(** app.py lines 131 to 146: the keywords taken from the paste area. *)
Definition keywords_from_paste (pasted_keywords : pystr) : list pystr :=
  if nonempty pasted_keywords then
    match parse_keywords (Text pasted_keywords) with
    | (_, Some _) => []
    | (all_pasted, None) =>
        if (250 <? length all_pasted)%nat then firstn 250 all_pasted
        else all_pasted
    end
  else [].

(** app.py lines 114 to 121: the keywords taken from an uploaded file. *)
Definition keywords_from_upload (uploaded_file : option (list Z)) : list pystr :=
  match uploaded_file with
  | Some content =>
      match parse_keywords (Csv (Some content)) with
      | (_, Some _) => []
      | (keywords, None) => keywords
      end
  | None => []
  end.

End ParseKeywords.

(** [langs.sort(key=lambda x: x[0])]: stable, ascending by name. *)
Fixpoint insert_by_name (x : pystr * pystr) (sorted : list (pystr * pystr))
  : list (pystr * pystr) :=
  match sorted with
  | [] => [x]
  | y :: rest =>
      if str_leb (fst x) (fst y) then x :: sorted
      else y :: insert_by_name x rest
  end.

Definition sort_by_name (langs : list (pystr * pystr)) : list (pystr * pystr) :=
  fold_right insert_by_name [] langs.

(** [names.remove(x)] when [x] is in the list: the first occurrence goes. *)
Fixpoint remove_first (x : pystr) (names : list pystr) : list pystr :=
  match names with
  | [] => []
  | n :: rest => if pystr_eqb n x then rest else n :: remove_first x rest
  end.

Definition default_list : list pystr :=
  [text "English"; text "Spanish"; text "French"; text "German";
   text "Dutch"; text "Italian"].

Section LanguageList.

(** [[(lang.name, lang.alpha_2) for lang in pycountry.languages]]: the pairs,
    or the exception raised while building them. *)
Variable pycountry_pairs : result (list (pystr * pystr)).

(** [isinstance(e, LookupError)] *)
Variable is_lookup_error : exn -> bool.

Definition get_language_list : M (list pystr) :=
  match pycountry_pairs with
  | Return langs =>
      let lang_names := map fst (sort_by_name langs) in
      if existsb (pystr_eqb (text "English")) lang_names
      then ret (text "English" :: remove_first (text "English") lang_names)
      else ret (text "English" :: lang_names)
  | Raise e =>
      if is_lookup_error e then
        print (text "Warning: pycountry locale data not found. Using a basic language list.") ;;
        ret default_list
      else
        print (text "Error generating language list: " ++ exn_str e
               ++ text ". Using a basic list.") ;;
        ret default_list
  end.

End LanguageList.

End Utils.

(* ================================================================== *)
(** * llm_utils.py: the vendor wrappers in full *)

Module LLMUtils.

(** [s.find(c)] and [s.rfind(c)] for a one-character [c]. *)
Fixpoint find_from (c : N) (s : pystr) (i : Z) : Z :=
  match s with
  | [] => (-1)%Z
  | x :: s' => if (x =? c)%N then i else find_from c s' (i + 1)%Z
  end.

Definition find (c : N) (s : pystr) : Z := find_from c s 0%Z.

Fixpoint rfind_from (c : N) (s : pystr) (i last : Z) : Z :=
  match s with
  | [] => last
  | x :: s' => rfind_from c s' (i + 1)%Z (if (x =? c)%N then i else last)
  end.

Definition rfind (c : N) (s : pystr) : Z := rfind_from c s 0%Z (-1)%Z.

(** [s[start:stop]] for bounds that are not negative. *)
Definition slice (s : pystr) (start stop : Z) : pystr :=
  firstn (Z.to_nat (stop - start)) (skipn (Z.to_nat start) s).

Section Wrappers.

(** What comes before the [try] of a wrapper: the import of the vendor
    package and the construction of its client. *)
Variable client_setup : vendor -> result unit.

(** The request inside the [try], up to [content = ...]: the text of the
    answer, or the exception raised. *)
Variable request : vendor -> pystr -> result pystr.

(** [json.loads] *)
Variable json_loads : pystr -> result pyval.

(** [str(UnboundLocalError)] for the local [content]. *)
Variable content_unbound : pystr.

Definition lift {A : Type} (r : result A) : M A := fun w => (r, w).

Definition record_call (v : vendor) (prompt : pystr) : M unit :=
  modify (fun w => set_vendor_calls (vendor_calls w ++ [(v, prompt)]) w).

(** The body shared by [call_gemini_api], [call_claude_api] and
    [call_mistral_api]; [who] and [api] are the names in the two messages. *)
Definition call_braced_api (v : vendor) (who api : pystr) (prompt : pystr)
  : M pyval :=
  record_call v prompt ;;
  lift (client_setup v) ;;
  try_except
    (content <- lift (request v prompt) ;;
     let json_start := find 123 content in
     let json_end := (rfind 125 content + 1)%Z in
     if negb (json_start =? -1)%Z && negb (json_end =? -1)%Z then
       lift (json_loads (strip (slice content json_start json_end)))
     else
       print (text "Could not find JSON in " ++ who ++ text " response: "
              ++ content) ;;
       ret PyNone)
    (fun e =>
       print (text "Error calling " ++ api ++ text ": " ++ exn_str e) ;;
       ret PyNone).

Definition call_gemini_api : pystr -> M pyval :=
  call_braced_api Gemini (text "Gemini") (text "Gemini API").
Definition call_claude_api : pystr -> M pyval :=
  call_braced_api Claude (text "Claude") (text "Claude API").
Definition call_mistral_api : pystr -> M pyval :=
  call_braced_api Mistral (text "Mistral (OpenAI Compatible)")
                  (text "Mistral API (OpenAI Compatible)").

Definition UnboundLocalError : exn :=
  Exn (text "UnboundLocalError") content_unbound.

(** The second attempt of [call_openai_api], lines 27 to 35; [content] is
    [None] while the local is not bound.  Line 29 then raises
    [UnboundLocalError] inside the inner [try]; its handler reads [content]
    again to build the message of line 34 and raises the same error before
    anything is printed, so the error leaves the function. *)
Definition openai_second_attempt (content : option pystr) : M pyval :=
  match content with
  | None => raise UnboundLocalError
  | Some content =>
      try_except
        (let json_start := find 123 content in
         let json_end := (rfind 125 content + 1)%Z in
         if negb (json_start =? -1)%Z && negb (json_end =? -1)%Z then
           lift (json_loads (slice content json_start json_end))
         else ret PyNone)
        (fun json_e =>
           print (text "Error parsing OpenAI JSON response: " ++ exn_str json_e
                  ++ text ". Content: " ++ content) ;;
           ret PyNone)
  end.

Definition call_openai_api (prompt : pystr) : M pyval :=
  record_call OpenAI prompt ;;
  lift (client_setup OpenAI) ;;
  match request OpenAI prompt with
  | Raise e =>
      print (text "Error calling OpenAI API: " ++ exn_str e) ;;
      openai_second_attempt None
  | Return content =>
      match json_loads (strip content) with
      | Return parsed => ret parsed
      | Raise e =>
          print (text "Error calling OpenAI API: " ++ exn_str e) ;;
          openai_second_attempt (Some content)
      end
  end.

End Wrappers.

End LLMUtils.

(* ================================================================== *)
(** * Further inputs for the examples *)

Module Samples.

(** A store whose table does not exist. *)
Definition no_table : World :=
  {| keyword_groups := None; stdout := []; vendor_calls := [];
     clock_reads := 0; results := []; processed_count := 0; errors := 0;
     llm_calls := 0; cache_hits := 0 |}.

(** A clock that is read twice within one second. *)
Definition same_second (_ : nat) : pystr := text "2025-04-10 09:30:10".

(** Three pasted lines, one of them repeated, with a blank line. *)
Definition pasted : pystr :=
  text "running shoes" ++ [13; 10]%N ++ text "  wool socks " ++ [10]%N
  ++ [10]%N ++ text "running shoes" ++ [10]%N.

(** An answer wrapped in a Markdown fence. *)
Definition fenced : pystr :=
  text "```json" ++ [10]%N ++ text "{" ++ Scenario.dq ++ text "main_cat"
  ++ Scenario.dq ++ text ": 1}" ++ [10]%N ++ text "```".

Definition braced : pystr :=
  text "{" ++ Scenario.dq ++ text "main_cat" ++ Scenario.dq ++ text ": 1}".

(** A stand-in for [json.loads] that accepts [braced] only. *)
Definition loads_braced (s : pystr) : result pyval :=
  if pystr_eqb s braced then Return (PyDict [(text "main_cat", PyInt 1)])
  else Raise (Exn (text "JSONDecodeError")
                  (text "Expecting value: line 1 column 1 (char 0)")).

Definition languages : list (pystr * pystr) :=
  [(text "French", text "fr"); (text "English", text "en");
   (text "Dutch", text "nl")].

(** Collaborators of the vendor wrappers. *)
Definition setup_ok (_ : vendor) : result unit := Return tt.
Definition answer_fenced (_ : vendor) (_ : pystr) : result pystr :=
  Return fenced.
Definition answer_braced (_ : vendor) (_ : pystr) : result pystr :=
  Return braced.
Definition refusal : pystr := text "I cannot classify this.".
Definition answer_refusal (_ : vendor) (_ : pystr) : result pystr :=
  Return refusal.
Definition answer_fails (_ : vendor) (_ : pystr) : result pystr :=
  Raise Scenario.connection_error.
Definition unbound_message : pystr :=
  text "cannot access local variable 'content' where it is not associated with a value".

(** Collaborators of [parse_keywords]. *)
Definition column_of (_ : list Z) : result (list pystr) :=
  Return [Scenario.shoes; []; Scenario.socks; Scenario.shoes].
Definition is_value_error (e : exn) : bool :=
  pystr_eqb (exn_class e) (text "ValueError").

End Samples.

(* ================================================================== *)
(** * The program *)

Section Program.

(** Python's [repr] of a [str] (quoting and escaping follow the Unicode
    character database). *)
Variable repr_str : pystr -> pystr.

(** What [str.format] does with a template that has a replacement field
    beyond a plain name (index, attribute, conversion, format
    specification, positional field). *)
Variable format_ext : pystr -> pystr -> pystr -> result pystr.

(** What a vendor API call gives back for a prompt, after the calls made
    so far: the parsed JSON, [None], or an exception. *)
Variable vendor_reply : list (vendor * pystr) -> vendor -> pystr -> result pyval.

(** [datetime.now().strftime("%Y-%m-%d %H:%M:%S")] at the n-th reading. *)
Variable clock : nat -> pystr.

(** ** Built-ins *)

(** [repr(v)] *)
Fixpoint py_repr (v : pyval) : pystr :=
  match v with
  | PyNone => text "None"
  | PyBool true => text "True"
  | PyBool false => text "False"
  | PyInt z => str_of_int z
  | PyFloat r => r
  | PyStr s => repr_str s
  | PyList l => text "[" ++ join (text ", ") (map py_repr l) ++ text "]"
  | PyDict d =>
      text "{" ++
      join (text ", ")
           (map (fun kv : pystr * pyval => let (k, x) := kv in
                           repr_str k ++ text ": " ++ py_repr x) d) ++
      text "}"
  end.

(** [str(v)] *)
Definition py_str (v : pyval) : pystr :=
  match v with
  | PyStr s => s
  | _ => py_repr v
  end.

Definition is_ident_start (c : N) : bool :=
  ((65 <=? c) && (c <=? 90) || (97 <=? c) && (c <=? 122) || (c =? 95))%N.
Definition is_ident_char (c : N) : bool :=
  (is_ident_start c || (48 <=? c) && (c <=? 57))%N.

(** The value of a replacement field [{name}] under
    [.format(keyword=..., language=...)]; [None] when the field is not a
    plain name. *)
Definition format_field (name keyword language : pystr) : option (result pystr) :=
  if pystr_eqb name (text "keyword") then Some (Return keyword)
  else if pystr_eqb name (text "language") then Some (Return language)
  else match name with
       | c :: rest =>
           if is_ident_start c && forallb is_ident_char rest
           then Some (Raise (KeyError_ident name))
           else None
       | [] => None
       end.

Inductive format_mode := InText | InField (name : pystr).

(** [template.format(keyword=keyword, language=language)], scanning as
    CPython's [MarkupIterator_next] and [parse_field] do: [{{] and [}}] are
    literal braces, [{name}] is replaced, a lone brace raises. *)
Fixpoint format_scan (template keyword language : pystr)
    (s : pystr) (mode : format_mode) (out : pystr) : result pystr :=
  match mode, s with
  | InText, [] => Return out
  | InText, c :: s' =>
      if (c =? 123)%N then
        match s' with
        | [] => Raise (ValueError (text "Single '{' encountered in format string"))
        | c2 :: s'' =>
            if (c2 =? 123)%N
            then format_scan template keyword language s'' InText (out ++ [c])
            else format_scan template keyword language s' (InField []) out
        end
      else if (c =? 125)%N then
        match s' with
        | c2 :: s'' =>
            if (c2 =? 125)%N
            then format_scan template keyword language s'' InText (out ++ [c])
            else Raise (ValueError (text "Single '}' encountered in format string"))
        | [] => Raise (ValueError (text "Single '}' encountered in format string"))
        end
      else format_scan template keyword language s' InText (out ++ [c])
  | InField name, [] =>
      Raise (ValueError (text "expected '}' before end of string"))
  | InField name, c :: s' =>
      if (c =? 123)%N then
        Raise (ValueError (text "unexpected '{' in field name"))
      else if (c =? 125)%N then
        match format_field name keyword language with
        | Some (Return value) =>
            format_scan template keyword language s' InText (out ++ value)
        | Some (Raise e) => Raise e
        | None => format_ext template keyword language
        end
      else if ((c =? 91) || (c =? 58) || (c =? 33))%N then
        format_ext template keyword language
      else format_scan template keyword language s' (InField (name ++ [c])) out
  end.

Definition format (template keyword language : pystr) : result pystr :=
  format_scan template keyword language template InText [].

(** Text without [{] and [}]. *)
Definition brace_free (s : pystr) : Prop :=
  Forall (fun c => c <> 123%N /\ c <> 125%N) s.

(** ** db_utils.py *)

Definition same_triple (k l h : pystr) (r : Row) : bool :=
  pystr_eqb (keyword r) k && pystr_eqb (language r) l &&
  pystr_eqb (prompt_hash r) h.

Definition no_such_table : exn :=
  OperationalError (text "no such table: keyword_groups").

(** [CREATE TABLE IF NOT EXISTS keyword_groups (...)] *)
Definition init_db : M unit :=
  modify (fun w =>
    match keyword_groups w with
    | None => set_keyword_groups (Some []) w
    | Some _ => w
    end).

(** [SELECT main_cat, sub_cat_1, sub_cat_2, semantic_theme FROM keyword_groups
     WHERE keyword = ? AND language = ? AND prompt_hash = ?] then
    [fetchone()], on a database file that can be opened and read: the one
    failure modelled is the missing table.  A locked or damaged file, on
    which sqlite3 raises [OperationalError] as well, is outside the model. *)
Definition select_grouping (k l h : pystr) : M (option Row) :=
  fun w =>
    match keyword_groups w with
    | None => (Raise no_such_table, w)
    | Some t => (Return (find (same_triple k l h) t), w)
    end.

(** [UNIQUE(keyword, language, prompt_hash)] as a property of a table. *)
Definition unique_triples (t : list Row) : Prop :=
  forall k l h, (length (filter (same_triple k l h) t) <= 1)%nat.

(** Descending order of [date_added]: [a] may stand before [b]. *)
Definition not_older (a b : Row) : Prop :=
  str_leb (date_added b) (date_added a) = true.

(** Strictly ascending order of [date_added]: [a] carries an earlier time
    than [b]. *)
Definition older (a b : Row) : Prop :=
  str_leb (date_added b) (date_added a) = false.

(** The next AUTOINCREMENT id. *)
Definition next_id (t : list Row) : Z :=
  fold_left Z.max (map id t) 0%Z + 1.

Definition new_row (t : list Row) (k l h m s1 s2 th d : pystr) : Row :=
  {| id := next_id t; keyword := k; language := l; prompt_hash := h;
     main_cat := m; sub_cat_1 := s1; sub_cat_2 := s2; semantic_theme := th;
     date_added := d |}.

(** [INSERT INTO keyword_groups (...) VALUES (...)] under
    [UNIQUE(keyword, language, prompt_hash)], then [commit()], on a database
    file that can be written: the failures modelled are the missing table
    and the violated constraint.  A locked or read-only file, on which
    sqlite3 raises [OperationalError] as well, is outside the model. *)
Definition insert_grouping (k l h m s1 s2 th d : pystr) : M unit :=
  fun w =>
    match keyword_groups w with
    | None => (Raise no_such_table, w)
    | Some t =>
        if existsb (same_triple k l h) t then
          (Raise (IntegrityError (text
             "UNIQUE constraint failed: keyword_groups.keyword, keyword_groups.language, keyword_groups.prompt_hash")),
           w)
        else
          (Return tt,
           set_keyword_groups (Some (t ++ [new_row t k l h m s1 s2 th d])) w)
    end.

(** [datetime.now().strftime("%Y-%m-%d %H:%M:%S")] *)
Definition now_strftime : M pystr :=
  fun w => (Return (clock (clock_reads w)),
            set_clock_reads (S (clock_reads w)) w).

(** [dict(result)] for a fetched row of the four selected columns. *)
Definition dict_of_row (r : Row) : dict pystr :=
  [(text "main_cat", main_cat r); (text "sub_cat_1", sub_cat_1 r);
   (text "sub_cat_2", sub_cat_2 r); (text "semantic_theme", semantic_theme r)].

Definition get_existing_grouping (keyword language prompt_text : pystr)
  : M (option (dict pystr)) :=
  let prompt_hash := get_prompt_hash prompt_text in
  result <- select_grouping keyword language prompt_hash ;;
  ret (match result with
       | Some r => Some (dict_of_row r)
       | None => None
       end).

(** The line printed when the insert violates the UNIQUE constraint. *)
Definition duplicate_warning (keyword language prompt_hash : pystr) : pystr :=
  text "Warning: Attempted to add duplicate entry for Keyword: "
  ++ keyword ++ text ", Lang: " ++ language
  ++ text ", Prompt Hash: " ++ firstn 8 prompt_hash ++ text "...".

Definition add_keyword_grouping
    (keyword language prompt_text main_cat sub_cat_1 sub_cat_2 semantic_theme : pystr)
  : M unit :=
  date_added <- now_strftime ;;
  let prompt_hash := get_prompt_hash prompt_text in
  try_except_class
    (insert_grouping keyword language prompt_hash
                     main_cat sub_cat_1 sub_cat_2 semantic_theme date_added)
    (text "IntegrityError")
    (fun _ => print (duplicate_warning keyword language prompt_hash)).

(** [ORDER BY date_added DESC] as SQLite evaluates it on this table: rows
    with equal [date_added] keep their table order, the one inserted first
    standing first. *)
Fixpoint insert_desc (r : Row) (sorted : list Row) : list Row :=
  match sorted with
  | [] => [r]
  | x :: rest =>
      if str_leb (date_added x) (date_added r) then r :: sorted
      else x :: insert_desc r rest
  end.

Definition order_by_date_added_desc (t : list Row) : list Row :=
  fold_right insert_desc [] t.

Definition export_columns : list pystr :=
  [text "main_cat"; text "sub_cat_1"; text "sub_cat_2"; text "keyword";
   text "language"; text "semantic_theme"; text "date_added"].

Definition export_row (r : Row) : list pystr :=
  [main_cat r; sub_cat_1 r; sub_cat_2 r; keyword r; language r;
   semantic_theme r; date_added r].

Definition get_all_data : M DataFrame :=
  fun w =>
    match keyword_groups w with
    | None =>
        (Raise (DatabaseError (text
           "Execution failed on sql 'SELECT main_cat, sub_cat_1, sub_cat_2, keyword, language, semantic_theme, date_added FROM keyword_groups ORDER BY date_added DESC': no such table: keyword_groups")),
         w)
    | Some t =>
        (Return {| columns := export_columns;
                   rows := map export_row (order_by_date_added_desc t) |}, w)
    end.

(** ** llm_utils.py *)

(** A vendor wrapper ([call_openai_api] and its siblings) seen from its
    caller: the call is recorded and the reply is the vendor's.  The lines
    a wrapper prints before it returns [None] are not recorded here; the
    bodies of the wrappers, with what they print, are in [LLMUtils]. *)
Definition call_api (v : vendor) (prompt : pystr) : M pyval :=
  fun w => (vendor_reply (vendor_calls w) v prompt,
            set_vendor_calls (vendor_calls w ++ [(v, prompt)]) w).

Definition call_openai_api := call_api OpenAI.
Definition call_gemini_api := call_api Gemini.
Definition call_claude_api := call_api Claude.
Definition call_mistral_api := call_api Mistral.

Definition get_llm_grouping
    (keyword language llm_choice custom_prompt_template : pystr) : M pyval :=
  match format custom_prompt_template keyword language with
  | Raise e => raise e
  | Return prompt =>
      if pystr_eqb llm_choice (text "OpenAI") then call_openai_api prompt
      else if pystr_eqb llm_choice (text "Gemini") then call_gemini_api prompt
      else if pystr_eqb llm_choice (text "Claude") then call_claude_api prompt
      else if pystr_eqb llm_choice (text "Mistral") then call_mistral_api prompt
      else raise (ValueError (text "Invalid LLM choice"))
  end.

(** ** app.py: the keyword processing loop *)

(** [st.session_state.results.append(entry)] *)
Definition results_append (entry : dict pystr) : M unit :=
  modify (fun w => set_results (results w ++ [entry]) w).

Definition incr_errors : M unit :=
  modify (fun w => set_errors (errors w + 1) w).
Definition incr_llm_calls : M unit :=
  modify (fun w => set_llm_calls (llm_calls w + 1) w).
Definition incr_cache_hits : M unit :=
  modify (fun w => set_cache_hits (cache_hits w + 1) w).
Definition incr_processed_count : M unit :=
  modify (fun w => set_processed_count (processed_count w + 1) w).

(** [if existing:] on the value [get_existing_grouping] returned. *)
Definition existing_truthy (existing : option (dict pystr)) : bool :=
  match existing with
  | Some (_ :: _) => true
  | _ => false
  end.

(** The test of line 225: truthy, a dict, and the four keys present. *)
Definition valid_response (llm_result : pyval) : bool :=
  truthy llm_result && is_dict llm_result &&
  match llm_result with
  | PyDict d =>
      dict_in (text "main_cat") d && dict_in (text "sub_cat_1") d &&
      dict_in (text "sub_cat_2") d && dict_in (text "semantic_theme") d
  | _ => false
  end.

(** [str(llm_result.get(key, default)).strip() or default] *)
Definition field_or_default (llm_result : pyval) (key default : pystr) : pystr :=
  match llm_result with
  | PyDict d =>
      str_or (strip (py_str (dict_get_default d key (PyStr default)))) default
  | _ => default
  end.

(** The tags offered for [selected_llm] (line 55). *)
Definition llm_options : list pystr :=
  [text "OpenAI"; text "Gemini"; text "Claude"; text "Mistral"].

Definition required_fields : list pystr :=
  [text "main_cat"; text "sub_cat_1"; text "sub_cat_2"; text "semantic_theme"].


Section Loop.

Variables selected_language selected_llm custom_prompt : pystr.

(** What the cache check of one iteration leaves to do. *)
Inductive checked :=
| Skip
| Proceed (existing : option (dict pystr)).

Definition cache_hit_entry (keyword : pystr) (existing : dict pystr) : dict pystr :=
  [(text "keyword", keyword);
   (text "language", selected_language);
   (text "main_cat", dict_get_default existing (text "main_cat") (text "N/A"));
   (text "sub_cat_1", dict_get_default existing (text "sub_cat_1") (text "N/A"));
   (text "sub_cat_2", dict_get_default existing (text "sub_cat_2") (text "N/A"));
   (text "semantic_theme",
      dict_get_default existing (text "semantic_theme") (text "N/A"));
   (text "_source", text "cache")].

Definition db_error_entry (keyword : pystr) (db_err : exn) : dict pystr :=
  [(text "keyword", keyword);
   (text "language", selected_language);
   (text "main_cat", text "DB_ERROR");
   (text "sub_cat_1", text "DB_ERROR");
   (text "sub_cat_2", text "DB_ERROR");
   (text "semantic_theme", text "DB Check Error: " ++ exn_str db_err)].

Definition grouping_entry (keyword main_cat sub_cat_1 sub_cat_2 semantic_theme
                           source : pystr) : dict pystr :=
  [(text "keyword", keyword);
   (text "language", selected_language);
   (text "main_cat", main_cat);
   (text "sub_cat_1", sub_cat_1);
   (text "sub_cat_2", sub_cat_2);
   (text "semantic_theme", semantic_theme);
   (text "_source", source)].

Definition invalid_response_entry (keyword : pystr) (llm_result : pyval)
  : dict pystr :=
  grouping_entry keyword (text "LLM_ERROR") (text "LLM_ERROR") (text "LLM_ERROR")
    (text "Invalid/Incomplete LLM Response: "
       ++ firstn 100 (py_str llm_result) ++ text "...")
    (text "llm_error").

Definition api_error_entry (keyword : pystr) (e : exn) : dict pystr :=
  grouping_entry keyword (text "LLM_ERROR") (text "LLM_ERROR") (text "LLM_ERROR")
    (text "API/Processing Error: " ++ exn_str e)
    (text "llm_error").

(** Lines 216 to 268: the cache-miss branch. *)
Definition call_llm_and_store (keyword : pystr) : M unit :=
  incr_llm_calls ;;
  try_except
    (llm_result <- get_llm_grouping keyword selected_language selected_llm
                                    custom_prompt ;;
     if valid_response llm_result then
       let main_cat :=
         field_or_default llm_result (text "main_cat") (text "Uncategorized") in
       let sub_cat_1 :=
         field_or_default llm_result (text "sub_cat_1") (text "General") in
       let sub_cat_2 :=
         field_or_default llm_result (text "sub_cat_2") (text "Detail") in
       let semantic_theme :=
         field_or_default llm_result (text "semantic_theme") (text "N/A") in
       saved <- try_except
                  (add_keyword_grouping keyword selected_language custom_prompt
                                        main_cat sub_cat_1 sub_cat_2
                                        semantic_theme ;;
                   ret true)
                  (fun db_add_err =>
                     incr_errors ;;
                     results_append
                       (grouping_entry keyword main_cat sub_cat_1 sub_cat_2
                                       semantic_theme (text "llm_db_error")) ;;
                     ret false) ;;
       if saved : bool then
         results_append
           (grouping_entry keyword main_cat sub_cat_1 sub_cat_2 semantic_theme
                           (text "llm")) ;;
         incr_processed_count
       else ret tt
     else
       incr_errors ;;
       results_append (invalid_response_entry keyword llm_result))
    (fun e =>
       incr_errors ;;
       results_append (api_error_entry keyword e)).

(** One iteration of the loop of line 186. *)
Definition process_keyword (keyword : pystr) : M unit :=
  c <- try_except
         (existing <- get_existing_grouping keyword selected_language
                                            custom_prompt ;;
          ret (Proceed existing))
         (fun db_err =>
            incr_errors ;;
            results_append (db_error_entry keyword db_err) ;;
            ret Skip) ;;
  match c with
  | Skip => ret tt
  | Proceed existing =>
      if existing_truthy existing then
        incr_cache_hits ;;
        results_append
          (cache_hit_entry keyword
             (match existing with Some d => d | None => [] end)) ;;
        incr_processed_count
      else call_llm_and_store keyword
  end.

(** The state an iteration leaves, case by case. *)
Inductive step_outcome (k : pystr) (w : World) : World -> Prop :=
| step_db_error :
    keyword_groups w = None ->
    step_outcome k w
      (set_results (results w ++ [db_error_entry k no_such_table])
                   (set_errors (errors w + 1) w))
| step_cache_hit (t : list Row) (r : Row) :
    keyword_groups w = Some t ->
    find (same_triple k selected_language (get_prompt_hash custom_prompt)) t
      = Some r ->
    step_outcome k w
      (set_processed_count (processed_count w + 1)
         (set_results
            (results w ++
             [grouping_entry k (main_cat r) (sub_cat_1 r) (sub_cat_2 r)
                    (semantic_theme r) (text "cache")])
            (set_cache_hits (cache_hits w + 1) w)))
| step_model_error (t : list Row) (calls : list (vendor * pystr)) (e : exn) :
    keyword_groups w = Some t ->
    find (same_triple k selected_language (get_prompt_hash custom_prompt)) t
      = None ->
    get_llm_grouping k selected_language selected_llm custom_prompt
                     (set_llm_calls (llm_calls w + 1) w)
      = (Raise e, set_vendor_calls calls (set_llm_calls (llm_calls w + 1) w)) ->
    step_outcome k w
      (set_results (results w ++ [api_error_entry k e])
         (set_errors (errors w + 1)
            (set_vendor_calls calls (set_llm_calls (llm_calls w + 1) w))))
| step_invalid (t : list Row) (calls : list (vendor * pystr)) (v : pyval) :
    keyword_groups w = Some t ->
    find (same_triple k selected_language (get_prompt_hash custom_prompt)) t
      = None ->
    get_llm_grouping k selected_language selected_llm custom_prompt
                     (set_llm_calls (llm_calls w + 1) w)
      = (Return v, set_vendor_calls calls (set_llm_calls (llm_calls w + 1) w)) ->
    valid_response v = false ->
    step_outcome k w
      (set_results (results w ++ [invalid_response_entry k v])
         (set_errors (errors w + 1)
            (set_vendor_calls calls (set_llm_calls (llm_calls w + 1) w))))
| step_stored (t : list Row) (calls : list (vendor * pystr)) (v : pyval) :
    keyword_groups w = Some t ->
    find (same_triple k selected_language (get_prompt_hash custom_prompt)) t
      = None ->
    get_llm_grouping k selected_language selected_llm custom_prompt
                     (set_llm_calls (llm_calls w + 1) w)
      = (Return v, set_vendor_calls calls (set_llm_calls (llm_calls w + 1) w)) ->
    valid_response v = true ->
    step_outcome k w
      (set_processed_count (processed_count w + 1)
         (set_results
            (results w ++
             [grouping_entry k (field_or_default v (text "main_cat") (text "Uncategorized"))
                    (field_or_default v (text "sub_cat_1") (text "General"))
                    (field_or_default v (text "sub_cat_2") (text "Detail"))
                    (field_or_default v (text "semantic_theme") (text "N/A")) (text "llm")])
            (set_keyword_groups
               (Some (t ++ [new_row t k selected_language
                              (get_prompt_hash custom_prompt)
                              (field_or_default v (text "main_cat") (text "Uncategorized"))
                              (field_or_default v (text "sub_cat_1") (text "General"))
                              (field_or_default v (text "sub_cat_2") (text "Detail"))
                              (field_or_default v (text "semantic_theme") (text "N/A"))
                              (clock (clock_reads w))]))
               (set_clock_reads (S (clock_reads w))
                  (set_vendor_calls calls
                     (set_llm_calls (llm_calls w + 1) w)))))).

(** Lines 170 to 176: the variables of a run start empty. *)
Definition start_run : M unit :=
  modify (fun w =>
    set_cache_hits 0 (set_llm_calls 0 (set_errors 0
      (set_processed_count 0 (set_results [] w))))).

Definition process_keywords (keywords_to_process : list pystr) : M unit :=
  start_run ;;
  for_each keywords_to_process process_keyword.

End Loop.

(* ================================================================== *)
(** * Properties *)

(** ** Text *)

Lemma pystr_eqb_eq (a b : pystr) : pystr_eqb a b = true <-> a = b.
Proof.
  revert b; induction a as [|x a IH]; intros [|y b]; simpl; split;
    try congruence; try reflexivity.
  - intros H. apply andb_true_iff in H as [Hx Hab].
    apply N.eqb_eq in Hx. apply IH in Hab. congruence.
  - intros H. injection H as -> ->. rewrite N.eqb_refl. simpl.
    apply IH. reflexivity.
Qed.

Lemma pystr_eqb_refl (a : pystr) : pystr_eqb a a = true.
Proof. apply pystr_eqb_eq. reflexivity. Qed.

Lemma pystr_eqb_neq (a b : pystr) : pystr_eqb a b = false <-> a <> b.
Proof.
  split.
  - intros H E. apply pystr_eqb_eq in E. congruence.
  - intros H. destruct (pystr_eqb a b) eqn:E; [|reflexivity].
    apply pystr_eqb_eq in E. contradiction.
Qed.

Lemma app_singleton_neq {A : Type} (l : list A) (x : A) : l ++ [x] <> l.
Proof.
  intros H. apply (f_equal (@length A)) in H.
  rewrite length_app in H. simpl in H. lia.
Qed.

(** [lstrip] removes a run of whitespace at the front, and all of it. *)
Lemma lstrip_spec (s : pystr) :
  exists ws,
    s = ws ++ lstrip s /\
    forallb is_whitespace ws = true /\
    (forall c rest, lstrip s = c :: rest -> is_whitespace c = false).
Proof.
  induction s as [|c s (ws & Hs & Hws & Hfirst)]; simpl.
  - exists []. split; [reflexivity|]. split; [reflexivity | discriminate].
  - destruct (is_whitespace c) eqn:E.
    + exists (c :: ws). simpl. rewrite E, Hws. split; [congruence|].
      split; [reflexivity | exact Hfirst].
    + exists []. split; [reflexivity|]. split; [reflexivity|].
      intros c' rest H. injection H as <- _. exact E.
Qed.

(** [strip] keeps a middle part of the text that neither starts nor ends
    with whitespace, and drops whitespace only. *)
Lemma strip_spec (s : pystr) :
  exists front back,
    s = front ++ strip s ++ back /\
    forallb is_whitespace front = true /\
    forallb is_whitespace back = true /\
    (forall c rest, strip s = c :: rest -> is_whitespace c = false) /\
    (forall init c, strip s = init ++ [c] -> is_whitespace c = false).
Proof.
  unfold strip, rstrip.
  destruct (lstrip_spec s) as (front & Hs & Hfront & Hfirst).
  destruct (lstrip_spec (rev (lstrip s))) as (kcab & Hr & Hback & Hlast).
  set (core := lstrip (rev (lstrip s))) in *.
  assert (Hl : lstrip s = rev core ++ rev kcab).
  { rewrite <- rev_app_distr, <- Hr, rev_involutive. reflexivity. }
  exists front, (rev kcab). split; [rewrite <- Hl; exact Hs|].
  split; [exact Hfront|]. split.
  - rewrite forallb_forall in *. intros x Hx. apply Hback, in_rev, Hx.
  - split.
    + intros c rest Hc. apply (Hfirst c (rest ++ rev kcab)).
      rewrite Hl, Hc. reflexivity.
    + intros init c Hc. apply (Hlast c (rev init)).
      rewrite <- (rev_involutive core), Hc, rev_app_distr. reflexivity.
Qed.

(** ** The fingerprint has fixed size *)

Lemma add32_word (x y : Z) : SHA256.word (SHA256.add32 x y).
Proof.
  unfold SHA256.word, SHA256.add32, SHA256.wrap.
  apply Z.mod_pos_bound. lia.
Qed.

Lemma compress_words (h : SHA256.chain) (block : list Z) :
  SHA256.chain_words (SHA256.compress h block).
Proof.
  unfold SHA256.compress, SHA256.chain_words.
  cbn [SHA256.ha SHA256.hb SHA256.hc SHA256.hd
       SHA256.he SHA256.hf SHA256.hg SHA256.hh].
  repeat split; apply add32_word.
Qed.

Lemma fold_compress_words (bs : list (list Z)) (h : SHA256.chain) :
  SHA256.chain_words h ->
  SHA256.chain_words (fold_left SHA256.compress bs h).
Proof.
  revert h; induction bs as [|b bs IH]; intros h Hh; simpl.
  - exact Hh.
  - apply IH. apply compress_words.
Qed.

Lemma chain_of_words (msg : list Z) : SHA256.chain_words (SHA256.chain_of msg).
Proof.
  unfold SHA256.chain_of. apply fold_compress_words.
  unfold SHA256.chain_words, SHA256.word, SHA256.initial_chain; simpl. lia.
Qed.

Lemma digest_bound (msg : list Z) :
  (0 <= SHA256.digest msg < 2 ^ 256)%Z.
Proof.
  unfold SHA256.digest.
  pose proof (chain_of_words msg) as H.
  destruct (SHA256.chain_of msg) as [a b c d e f g h].
  unfold SHA256.chain_words, SHA256.word in H.
  unfold SHA256.pack.
  cbn [SHA256.ha SHA256.hb SHA256.hc SHA256.hd
       SHA256.he SHA256.hf SHA256.hg SHA256.hh fold_left] in *.
  change (2 ^ 256)%Z with
    (4294967296 * 4294967296 * 4294967296 * 4294967296 *
     4294967296 * 4294967296 * 4294967296 * 4294967296)%Z.
  lia.
Qed.

(** No function from the naturals into a bounded range of integers is
    injective. *)
Lemma bounded_not_injective (bound : Z) (g : nat -> Z) :
  (forall n, 0 <= g n < bound)%Z ->
  ~ (forall i j, i <> j -> g i <> g j).
Proof.
  intros Hb Hinj.
  set (b := Z.to_nat bound).
  set (f := fun n => Z.to_nat (g n)).
  assert (Hf : Injective f).
  { intros i j E. destruct (Nat.eq_dec i j) as [|Hne]; [assumption|].
    exfalso. apply (Hinj i j Hne).
    unfold f in E. apply Z2Nat.inj in E; [assumption| |]; apply Hb. }
  assert (Hnd : NoDup (map f (seq 0 (S b)))).
  { apply Injective_map_NoDup; [exact Hf | apply seq_NoDup]. }
  assert (Hin : incl (map f (seq 0 (S b))) (seq 0 b)).
  { intros y Hy. apply in_map_iff in Hy as [n [<- _]].
    apply in_seq. unfold f, b. split; [lia|]. simpl.
    apply Z2Nat.inj_lt; apply (Hb n) || (pose proof (Hb n); lia). }
  pose proof (NoDup_incl_length Hnd Hin) as Hlen.
  rewrite length_map, !length_seq in Hlen. lia.
Qed.

Lemma utf8_repeat_ascii (n : nat) :
  encode_utf8 (repeat 97%N n) = repeat 97%Z n.
Proof.
  induction n as [|n IH]; [reflexivity|].
  change (encode_utf8 (repeat 97%N (S n)))
    with (utf8_char 97 ++ encode_utf8 (repeat 97%N n)).
  rewrite IH. reflexivity.
Qed.

(** Two different texts with the same fingerprint would exist if the
    fingerprint were injective on all texts; it cannot be. *)
Lemma get_prompt_hash_collides :
  ~ (forall T1 T2 : pystr, T1 <> T2 -> get_prompt_hash T1 <> get_prompt_hash T2).
Proof.
  intros Hinj.
  apply (@bounded_not_injective (2 ^ 256)
           (fun n => SHA256.digest (encode_utf8 (repeat 97%N n)))).
  - intros n. apply digest_bound.
  - intros i j Hij E.
    apply (Hinj (repeat 97%N i) (repeat 97%N j)).
    + intros Hrep. apply (f_equal (@length N)) in Hrep.
      rewrite !repeat_length in Hrep. contradiction.
    + unfold get_prompt_hash, SHA256.hexdigest. rewrite E. reflexivity.
Qed.

Lemma get_prompt_hash_length (T : pystr) : length (get_prompt_hash T) = 64%nat.
Proof.
  unfold get_prompt_hash, SHA256.hexdigest.
  rewrite length_map, length_seq. reflexivity.
Qed.

(** ** The cache operations, computed *)

Lemma get_existing_grouping_eq (k l T : pystr) (w : World) :
  get_existing_grouping k l T w =
  match keyword_groups w with
  | None => (Raise no_such_table, w)
  | Some t =>
      (Return (option_map dict_of_row
                 (find (same_triple k l (get_prompt_hash T)) t)), w)
  end.
Proof.
  unfold get_existing_grouping, bind, select_grouping, ret.
  destruct (keyword_groups w) as [t|]; [|reflexivity].
  destruct (find _ t); reflexivity.
Qed.

Lemma add_keyword_grouping_eq (k l T m s1 s2 th : pystr) (w : World) :
  add_keyword_grouping k l T m s1 s2 th w =
  let w0 := set_clock_reads (S (clock_reads w)) w in
  let h := get_prompt_hash T in
  match keyword_groups w with
  | None => (Raise no_such_table, w0)
  | Some t =>
      if existsb (same_triple k l h) t
      then (Return tt, set_stdout (stdout w ++ [duplicate_warning k l h]) w0)
      else (Return tt,
            set_keyword_groups
              (Some (t ++ [new_row t k l h m s1 s2 th (clock (clock_reads w))]))
              w0)
  end.
Proof.
  unfold add_keyword_grouping, bind, now_strftime, try_except_class,
    insert_grouping, print, modify.
  cbn [keyword_groups set_clock_reads].
  destruct (keyword_groups w) as [t|]; [|reflexivity].
  destruct (existsb _ t); reflexivity.
Qed.


Lemma find_none_existsb {A : Type} (p : A -> bool) (l : list A) :
  find p l = None <-> existsb p l = false.
Proof.
  induction l as [|x l IH]; simpl; [tauto|].
  destruct (p x); simpl; [split; discriminate | exact IH].
Qed.

Lemma find_app_new {A : Type} (p : A -> bool) (l : list A) (x : A) :
  existsb p l = false -> p x = true -> find p (l ++ [x]) = Some x.
Proof.
  induction l as [|y l IH]; simpl; intros Hl Hx.
  - rewrite Hx. reflexivity.
  - apply orb_false_iff in Hl as [Hy Hl]. rewrite Hy. apply IH; assumption.
Qed.

Lemma find_app_other {A : Type} (p : A -> bool) (l : list A) (x : A) :
  p x = false -> find p (l ++ [x]) = find p l.
Proof.
  intros Hx. induction l as [|y l IH]; simpl.
  - rewrite Hx. reflexivity.
  - destruct (p y); [reflexivity | exact IH].
Qed.

Lemma filter_none {A : Type} (p : A -> bool) (l : list A) :
  existsb p l = false -> filter p l = [].
Proof.
  induction l as [|y l IH]; simpl; [reflexivity|].
  intros H. apply orb_false_iff in H as [Hy Hl]. rewrite Hy. apply IH, Hl.
Qed.


Lemma same_triple_new_row (t : list Row) (k l h m s1 s2 th d : pystr) :
  same_triple k l h (new_row t k l h m s1 s2 th d) = true.
Proof.
  unfold same_triple, new_row; simpl. rewrite !pystr_eqb_refl. reflexivity.
Qed.

Lemma same_triple_other_hash (t : list Row) (k l h h' m s1 s2 th d : pystr) :
  h <> h' -> same_triple k l h' (new_row t k l h m s1 s2 th d) = false.
Proof.
  intros Hne. unfold same_triple, new_row; simpl.
  apply pystr_eqb_neq in Hne. rewrite Hne, !pystr_eqb_refl. reflexivity.
Qed.

(** The insert keeps the UNIQUE constraint. *)
Lemma insert_keeps_unique (t : list Row) (k l h m s1 s2 th d : pystr) :
  unique_triples t ->
  existsb (same_triple k l h) t = false ->
  unique_triples (t ++ [new_row t k l h m s1 s2 th d]).
Proof.
  intros Hu Hnew k' l' h'. rewrite filter_app, length_app. simpl.
  destruct (same_triple k' l' h' (new_row t k l h m s1 s2 th d)) eqn:E;
    simpl; [|specialize (Hu k' l' h'); lia].
  unfold same_triple, new_row in E; simpl in E.
  apply andb_true_iff in E as [E Eh]. apply andb_true_iff in E as [Ek El].
  apply pystr_eqb_eq in Ek, El, Eh. subst k' l' h'.
  rewrite (filter_none _ _ Hnew). simpl. lia.
Qed.

Lemma add_keyword_grouping_keeps_unique
    (k l T m s1 s2 th : pystr) (w w' : World) (t : list Row) (r : result unit) :
  keyword_groups w = Some t -> unique_triples t ->
  add_keyword_grouping k l T m s1 s2 th w = (r, w') ->
  exists t', keyword_groups w' = Some t' /\ unique_triples t'.
Proof.
  intros Ht Hu. rewrite add_keyword_grouping_eq, Ht. cbv zeta.
  destruct (existsb _ t) eqn:E; intros H; injection H as <- <-;
    cbn [keyword_groups set_stdout set_clock_reads set_keyword_groups].
  - exists t. split; assumption.
  - eexists. split; [reflexivity|]. apply insert_keeps_unique; assumption.
Qed.

(** ** Ordering of [date_added] *)

Ltac compare_facts :=
  repeat match goal with
  | H : (_ ?= _)%N = Eq |- _ => apply N.compare_eq_iff in H
  | H : (?a ?= ?b)%N = Lt |- _ => change (a < b)%N in H
  | H : (_ ?= _)%N = Gt |- _ => apply -> N.compare_gt_iff in H
  end.

Lemma str_leb_total (a b : pystr) : str_leb a b = false -> str_leb b a = true.
Proof.
  unfold str_leb. revert b.
  induction a as [|x a IH]; intros [|y b]; simpl; try congruence.
  destruct (x ?= y)%N eqn:E1, (y ?= x)%N eqn:E2;
    intros H; try reflexivity; try congruence;
    try (apply IH; assumption);
    compare_facts; lia.
Qed.

Lemma str_leb_trans (a b c : pystr) :
  str_leb a b = true -> str_leb b c = true -> str_leb a c = true.
Proof.
  unfold str_leb. revert b c.
  induction a as [|x a IH]; intros [|y b] [|z c]; simpl; try congruence.
  destruct (x ?= y)%N eqn:E1, (y ?= z)%N eqn:E2, (x ?= z)%N eqn:E3;
    intros H1 H2; try reflexivity; try congruence;
    try (eapply IH; eassumption);
    compare_facts; lia.
Qed.

Lemma insert_desc_perm (r : Row) (l : list Row) :
  Permutation (r :: l) (insert_desc r l).
Proof.
  induction l as [|x l IH]; simpl; [apply Permutation_refl|].
  destruct (str_leb (date_added x) (date_added r)).
  - apply Permutation_refl.
  - eapply perm_trans; [apply perm_swap|]. apply perm_skip, IH.
Qed.

Lemma insert_desc_sorted (r : Row) (l : list Row) :
  StronglySorted not_older l -> StronglySorted not_older (insert_desc r l).
Proof.
  induction l as [|x l IH]; simpl; intros Hs.
  - constructor; constructor.
  - inversion Hs as [|? ? Hl Hx]; subst.
    destruct (str_leb (date_added x) (date_added r)) eqn:E.
    + constructor; [exact Hs|]. constructor; [exact E|].
      eapply Forall_impl; [|exact Hx]. intros y Hy.
      unfold not_older in *. eapply str_leb_trans; eassumption.
    + constructor; [apply IH, Hl|].
      eapply Permutation_Forall; [apply insert_desc_perm|].
      constructor; [|exact Hx].
      unfold not_older. apply str_leb_total, E.
Qed.

Lemma order_by_perm (t : list Row) :
  Permutation t (order_by_date_added_desc t).
Proof.
  induction t as [|r t IH]; simpl; [constructor|].
  eapply perm_trans; [apply perm_skip, IH | apply insert_desc_perm].
Qed.

Lemma order_by_sorted (t : list Row) :
  StronglySorted not_older (order_by_date_added_desc t).
Proof.
  induction t as [|r t IH]; simpl; [constructor|].
  apply insert_desc_sorted, IH.
Qed.

(** A lookup sees the template only through its fingerprint. *)
Lemma lookup_depends_on_fingerprint (k l T1 T2 : pystr) (w : World) :
  get_prompt_hash T1 = get_prompt_hash T2 ->
  get_existing_grouping k l T1 w = get_existing_grouping k l T2 w.
Proof.
  intros H. rewrite !get_existing_grouping_eq, H. reflexivity.
Qed.

(** The first store of a triple, then the lookup of it. *)
Lemma lookup_after_first_store
    (k l T m s1 s2 th : pystr) (w : World) (t : list Row) :
  keyword_groups w = Some t ->
  existsb (same_triple k l (get_prompt_hash T)) t = false ->
  exists w1,
    add_keyword_grouping k l T m s1 s2 th w = (Return tt, w1) /\
    get_existing_grouping k l T w1 =
      (Return (Some [(text "main_cat", m); (text "sub_cat_1", s1);
                     (text "sub_cat_2", s2); (text "semantic_theme", th)]), w1).
Proof.
  intros Ht E. rewrite add_keyword_grouping_eq. cbv zeta. rewrite Ht, E.
  eexists. split; [reflexivity|].
  rewrite get_existing_grouping_eq.
  cbn [keyword_groups set_keyword_groups set_clock_reads].
  rewrite (find_app_new _ _ _ E (same_triple_new_row _ _ _ _ _ _ _ _ _)).
  reflexivity.
Qed.

(** In a list ordered newest first, the head is not older than any record. *)
Lemma newest_first_head (r : Row) (rest : list Row) :
  StronglySorted not_older (r :: rest) ->
  forall x, In x rest -> str_leb (date_added x) (date_added r) = true.
Proof.
  intros Hs x Hx. inversion Hs as [|? ? _ Hall]; subst.
  rewrite Forall_forall in Hall. exact (Hall x Hx).
Qed.

(** ** Claims on the cache *)


(** C4 (amended). A record stored under template T1 is not seen by a lookup
    under a template T2 whose fingerprint differs from that of T1: when
    nothing was cached for the keyword and language under T2 before the
    store, the lookup under T2 after it returns not found. *)
Theorem lookup_under_other_fingerprint
    (k l T1 T2 m s1 s2 th : pystr) (w w1 : World) (r : result unit) :
  get_prompt_hash T1 <> get_prompt_hash T2 ->
  get_existing_grouping k l T2 w = (Return None, w) ->
  add_keyword_grouping k l T1 m s1 s2 th w = (r, w1) ->
  get_existing_grouping k l T2 w1 = (Return None, w1).
Proof.
  intros Hh Hbefore Hadd.
  rewrite get_existing_grouping_eq in Hbefore.
  rewrite add_keyword_grouping_eq in Hadd. cbv zeta in Hadd.
  rewrite get_existing_grouping_eq.
  destruct (keyword_groups w) as [t|] eqn:Ht; [|discriminate].
  destruct (find (same_triple k l (get_prompt_hash T2)) t) eqn:Ef;
    [discriminate|].
  destruct (existsb (same_triple k l (get_prompt_hash T1)) t);
    injection Hadd as <- <-; cbn [keyword_groups set_stdout set_clock_reads
      set_keyword_groups]; rewrite ?Ht.
  - rewrite Ef. reflexivity.
  - rewrite find_app_other, Ef; [reflexivity|].
    apply same_triple_other_hash, Hh.
Qed.

(** Rows with the same [date_added] are not reordered. *)
Lemma insert_desc_same_date (d : pystr) (r : Row) (l : list Row) :
  filter (fun x => pystr_eqb (date_added x) d) (insert_desc r l) =
  filter (fun x => pystr_eqb (date_added x) d) (r :: l).
Proof.
  induction l as [|x l IH]; [reflexivity|].
  cbn [insert_desc].
  destruct (str_leb (date_added x) (date_added r)) eqn:E; [reflexivity|].
  cbn [filter]. rewrite IH. cbn [filter].
  destruct (pystr_eqb (date_added x) d) eqn:Ex;
    destruct (pystr_eqb (date_added r) d) eqn:Er; try reflexivity.
  apply pystr_eqb_eq in Ex, Er. rewrite Ex, Er in E.
  pose proof (str_leb_total _ _ E) as E'. congruence.
Qed.

Lemma order_by_same_date (d : pystr) (t : list Row) :
  filter (fun x => pystr_eqb (date_added x) d) (order_by_date_added_desc t) =
  filter (fun x => pystr_eqb (date_added x) d) t.
Proof.
  unfold order_by_date_added_desc.
  induction t as [|r t IH]; [reflexivity|].
  cbn [fold_right]. rewrite insert_desc_same_date. cbn [filter].
  rewrite IH. reflexivity.
Qed.

(** A row older than all the others goes last. *)
Lemma insert_desc_oldest (r : Row) (l : list Row) :
  Forall (older r) l -> insert_desc r l = l ++ [r].
Proof.
  induction 1 as [|x l Hx Hl IH]; [reflexivity|].
  cbn [insert_desc app]. unfold older in Hx. rewrite Hx, IH. reflexivity.
Qed.

Lemma order_by_increasing (t : list Row) :
  StronglySorted older t -> order_by_date_added_desc t = rev t.
Proof.
  unfold order_by_date_added_desc.
  induction 1 as [|r t Hs IH Hr]; [reflexivity|].
  cbn [fold_right rev]. rewrite IH. apply insert_desc_oldest.
  apply Forall_forall. intros x Hx. apply in_rev in Hx.
  rewrite Forall_forall in Hr. exact (Hr x Hx).
Qed.

(** C9 (amended). [get_all_data] does not change the store and returns
    every stored record, once each, with its seven export columns holding
    the stored values, ordered by [date_added] descending: no record stands
    before one with a later [date_added].  Records with the same
    [date_added] (created within the same second) stand in the order of
    their insertion, the older first; when the records of the table carry
    strictly increasing times, the list is the table reversed, the most
    recently created record first. *)
Theorem get_all_data_lists_everything_newest_first (w : World) (t : list Row) :
  keyword_groups w = Some t ->
  exists ordered,
    get_all_data w =
      (Return {| columns :=
                   [text "main_cat"; text "sub_cat_1"; text "sub_cat_2";
                    text "keyword"; text "language"; text "semantic_theme";
                    text "date_added"];
                 rows :=
                   map (fun r => [main_cat r; sub_cat_1 r; sub_cat_2 r;
                                  keyword r; language r; semantic_theme r;
                                  date_added r]) ordered |},
       w) /\
    Permutation t ordered /\
    StronglySorted not_older ordered /\
    (forall d,
       filter (fun r => pystr_eqb (date_added r) d) ordered =
       filter (fun r => pystr_eqb (date_added r) d) t) /\
    (StronglySorted older t -> ordered = rev t).
Proof.
  intros Ht. exists (order_by_date_added_desc t).
  unfold get_all_data. rewrite Ht.
  split; [reflexivity|]. split; [apply order_by_perm|].
  split; [apply order_by_sorted|].
  split; [intros d; apply order_by_same_date | apply order_by_increasing].
Qed.

(** ** The model client *)

Lemma get_llm_grouping_frame (k l choice tpl : pystr) (w w' : World)
    (r : result pyval) :
  get_llm_grouping k l choice tpl w = (r, w') ->
  w' = set_vendor_calls (vendor_calls w') w.
Proof.
  unfold get_llm_grouping, call_openai_api, call_gemini_api, call_claude_api,
    call_mistral_api, call_api, raise.
  destruct w; cbn [vendor_calls set_vendor_calls keyword_groups stdout
    clock_reads results processed_count errors llm_calls cache_hits].
  destruct (format tpl k l);
    repeat match goal with
           | |- context [if ?b then _ else _] => destruct b
           end;
    intros H; injection H as <- <-; reflexivity.
Qed.

Lemma dict_in_iff {V : Type} (key : pystr) (d : dict V) :
  dict_in key d = true <-> In key (map fst d).
Proof.
  unfold dict_in. induction d as [|[k v] d IH]; simpl.
  - split; [discriminate | tauto].
  - destruct (pystr_eqb k key) eqn:E.
    + apply pystr_eqb_eq in E. tauto.
    + apply pystr_eqb_neq in E. rewrite IH. tauto.
Qed.


Lemma valid_response_iff (v : pyval) :
  valid_response v = true <->
  exists d, v = PyDict d /\ incl required_fields (map fst d).
Proof.
  unfold valid_response. split.
  - destruct v as [| | | | | |d]; rewrite ?andb_false_r; try discriminate.
    intros H. exists d. split; [reflexivity|].
    apply andb_true_iff in H as [_ H].
    repeat (apply andb_true_iff in H as [H ?]).
    intros key Hk. unfold required_fields in Hk. simpl in Hk.
    destruct Hk as [<-|[<-|[<-|[<-|[]]]]]; apply dict_in_iff; assumption.
  - intros [d [-> Hincl]].
    assert (Hk : forall key, In key required_fields -> dict_in key d = true).
    { intros key Hin. apply dict_in_iff, Hincl, Hin. }
    assert (Hne : truthy (PyDict d) = true).
    { destruct d; [|reflexivity].
      specialize (Hincl (text "main_cat")). simpl in Hincl. tauto. }
    rewrite Hne. cbn [is_dict andb].
    rewrite !Hk; [reflexivity| | | |]; unfold required_fields; simpl; tauto.
Qed.


Section LoopFacts.

Variables selected_language selected_llm custom_prompt : pystr.

Local Abbreviation lookup k := (get_existing_grouping k selected_language custom_prompt).
Local Abbreviation ask k :=
  (get_llm_grouping k selected_language selected_llm custom_prompt).
Local Abbreviation miss := (call_llm_and_store selected_language selected_llm custom_prompt).
Local Abbreviation step := (process_keyword selected_language selected_llm custom_prompt).
Local Abbreviation entry := (grouping_entry selected_language).
Local Abbreviation field v key default := (field_or_default v (text key) (text default)).

Lemma call_llm_and_store_eq (k : pystr) (w : World) :
  miss k w =
  match ask k (set_llm_calls (llm_calls w + 1) w) with
  | (Raise e, w1) =>
      (Return tt,
       set_results (results w1 ++ [api_error_entry selected_language k e])
                   (set_errors (errors w1 + 1) w1))
  | (Return v, w1) =>
      if valid_response v then
        let m := field v "main_cat" "Uncategorized" in
        let s1 := field v "sub_cat_1" "General" in
        let s2 := field v "sub_cat_2" "Detail" in
        let th := field v "semantic_theme" "N/A" in
        match add_keyword_grouping k selected_language custom_prompt
                                   m s1 s2 th w1 with
        | (Return _, w2) =>
            (Return tt,
             set_processed_count (processed_count w2 + 1)
               (set_results (results w2 ++ [entry k m s1 s2 th (text "llm")])
                            w2))
        | (Raise _, w2) =>
            (Return tt,
             set_results
               (results w2 ++ [entry k m s1 s2 th (text "llm_db_error")])
               (set_errors (errors w2 + 1) w2))
        end
      else
        (Return tt,
         set_results (results w1 ++ [invalid_response_entry selected_language k v])
                     (set_errors (errors w1 + 1) w1))
  end.
Proof.
  unfold call_llm_and_store, bind, try_except, incr_llm_calls, modify.
  destruct (ask k (set_llm_calls (llm_calls w + 1) w)) as [[v|e] w1];
    [|reflexivity].
  destruct (valid_response v); [|reflexivity].
  cbv zeta.
  destruct (add_keyword_grouping _ _ _ _ _ _ _ w1) as [[[]|e] w2]; reflexivity.
Qed.

Lemma process_keyword_eq (k : pystr) (w : World) :
  step k w =
  match lookup k w with
  | (Raise db_err, w1) =>
      (Return tt,
       set_results (results w1 ++ [db_error_entry selected_language k db_err])
                   (set_errors (errors w1 + 1) w1))
  | (Return existing, w1) =>
      if existing_truthy existing then
        (Return tt,
         set_processed_count (processed_count w1 + 1)
           (set_results
              (results w1 ++
               [cache_hit_entry selected_language k
                  (match existing with Some d => d | None => [] end)])
              (set_cache_hits (cache_hits w1 + 1) w1)))
      else miss k w1
  end.
Proof.
  unfold process_keyword, bind, try_except, ret.
  destruct (lookup k w) as [[existing|e] w1]; [|reflexivity].
  destruct (existing_truthy existing); reflexivity.
Qed.

(** A cache hit, computed. *)
Lemma process_keyword_hit (k : pystr) (w : World) (t : list Row) (r : Row) :
  keyword_groups w = Some t ->
  find (same_triple k selected_language (get_prompt_hash custom_prompt)) t
    = Some r ->
  step k w =
  (Return tt,
   set_processed_count (processed_count w + 1)
     (set_results
        (results w ++
         [entry k (main_cat r) (sub_cat_1 r) (sub_cat_2 r) (semantic_theme r)
                (text "cache")])
        (set_cache_hits (cache_hits w + 1) w))).
Proof.
  intros Ht Hf. rewrite process_keyword_eq, get_existing_grouping_eq, Ht, Hf.
  reflexivity.
Qed.


Lemma get_existing_grouping_pure (k l T : pystr) (w w' : World)
    (r : result (option (dict pystr))) :
  get_existing_grouping k l T w = (r, w') -> w' = w.
Proof.
  rewrite get_existing_grouping_eq.
  destruct (keyword_groups w); intros H; injection H as <- <-; reflexivity.
Qed.

Lemma keyword_of_entry (k m s1 s2 th src : pystr) :
  dict_get (entry k m s1 s2 th src) (text "keyword") = Some k.
Proof. reflexivity. Qed.



(** An iteration keeps the table in place and its triples unique. *)
Lemma process_keyword_keeps_unique
    (k : pystr) (w w' : World) (t : list Row) (r : result unit) :
  keyword_groups w = Some t -> unique_triples t ->
  step k w = (r, w') ->
  exists t', keyword_groups w' = Some t' /\ unique_triples t'.
Proof.
  intros Ht Hu. rewrite process_keyword_eq.
  destruct (lookup k w) as [[existing|e] w1] eqn:Hl;
    apply get_existing_grouping_pure in Hl; subst w1.
  - destruct (existing_truthy existing).
    + intros H; injection H as <- <-. exists t. split; [exact Ht | exact Hu].
    + rewrite call_llm_and_store_eq.
      destruct (ask k (set_llm_calls (llm_calls w + 1) w)) as [[v|e] w1] eqn:Hask;
        pose proof (get_llm_grouping_frame _ _ _ _ _ Hask) as Hw1;
        assert (Hkg : keyword_groups w1 = Some t) by (rewrite Hw1; exact Ht).
      * destruct (valid_response v).
        -- cbv zeta.
           destruct (add_keyword_grouping _ _ _ _ _ _ _ w1) as [[[]|e] w2] eqn:Hadd;
             destruct (add_keyword_grouping_keeps_unique _ _ _ _ _ _ _ _ Hkg Hu Hadd)
               as (t' & Ht' & Hu');
             intros H; injection H as <- <-; exists t';
             (split; [exact Ht' | exact Hu']).
        -- intros H; injection H as <- <-. exists t.
           split; [exact Hkg | exact Hu].
      * intros H; injection H as <- <-. exists t. split; [exact Hkg | exact Hu].
  - intros H; injection H as <- <-. exists t. split; [exact Ht | exact Hu].
Qed.




(** ** Claims on the orchestrator *)

(** C1. When the lookup for a keyword returns a record, the iteration
    appends one entry with source [cache] built from the stored fields of
    a row of that triple, counts a cache hit, and makes no model call: the
    vendor calls and the model-call counter are unchanged. *)
Theorem cached_keyword_makes_no_model_call
    (k : pystr) (w w1 : World) (existing : dict pystr) :
  lookup k w = (Return (Some existing), w1) ->
  exists t r w',
    keyword_groups w = Some t /\ In r t /\
    same_triple k selected_language (get_prompt_hash custom_prompt) r = true /\
    existing = dict_of_row r /\
    step k w = (Return tt, w') /\
    results w' =
      results w ++ [entry k (main_cat r) (sub_cat_1 r) (sub_cat_2 r)
                          (semantic_theme r) (text "cache")] /\
    vendor_calls w' = vendor_calls w /\
    llm_calls w' = llm_calls w /\
    cache_hits w' = (cache_hits w + 1)%Z /\
    errors w' = errors w /\
    keyword_groups w' = keyword_groups w.
Proof.
  intros Hl. rewrite get_existing_grouping_eq in Hl.
  destruct (keyword_groups w) as [t|] eqn:Ht; [|discriminate].
  destruct (find (same_triple k selected_language
                    (get_prompt_hash custom_prompt)) t) as [r|] eqn:Hf;
    [|discriminate].
  injection Hl as <- <-.
  destruct (find_some _ _ Hf) as [Hin Hsame].
  exists t, r. eexists.
  rewrite (process_keyword_hit k w Ht Hf).
  repeat split; try reflexivity; assumption.
Qed.

(** C3. After a store that returned normally without the duplicate
    warning (the insert took place), the lookup with the same keyword,
    language and template returns exactly the four stored values, and
    processing that keyword again is a cache hit with the same category
    fields and no vendor call. *)
Theorem store_then_lookup_round_trip
    (k m s1 s2 th : pystr) (w w' : World) :
  add_keyword_grouping k selected_language custom_prompt m s1 s2 th w
    = (Return tt, w') ->
  stdout w' = stdout w ->
  lookup k w' =
    (Return (Some [(text "main_cat", m); (text "sub_cat_1", s1);
                   (text "sub_cat_2", s2); (text "semantic_theme", th)]), w') /\
  exists w'',
    step k w' = (Return tt, w'') /\
    results w'' = results w' ++ [entry k m s1 s2 th (text "cache")] /\
    vendor_calls w'' = vendor_calls w' /\
    llm_calls w'' = llm_calls w'.
Proof.
  intros Hadd Hout. rewrite add_keyword_grouping_eq in Hadd. cbv zeta in Hadd.
  destruct (keyword_groups w) as [t|] eqn:Ht; [|discriminate].
  destruct (existsb (same_triple k selected_language
                       (get_prompt_hash custom_prompt)) t) eqn:E.
  - injection Hadd as <-. cbn [stdout set_stdout set_clock_reads] in Hout.
    exfalso. eapply app_singleton_neq. exact Hout.
  - injection Hadd as <-.
    set (row := new_row t k selected_language (get_prompt_hash custom_prompt)
                        m s1 s2 th (clock (clock_reads w))).
    assert (Hf : find (same_triple k selected_language
                         (get_prompt_hash custom_prompt)) (t ++ [row])
                 = Some row).
    { apply find_app_new; [exact E | apply same_triple_new_row]. }
    split.
    + rewrite get_existing_grouping_eq.
      cbn [keyword_groups set_keyword_groups set_clock_reads].
      fold row. rewrite Hf. reflexivity.
    + eexists. rewrite (@process_keyword_hit k _ (t ++ [row]) row);
        [|reflexivity|exact Hf].
      repeat split; reflexivity.
Qed.


(** C7 (amended). A response is accepted exactly when it is a dict that
    has all four required keys (further keys do not matter).  For a
    response that is not accepted, the iteration appends an entry with
    source [llm_error] and sentinel categories, counts one error, and does
    not call the store: table, clock and output are untouched. *)
Theorem response_validation
    (v : pyval) (k : pystr) (w w1 : World) :
  (valid_response v = true <->
   exists d, v = PyDict d /\ incl required_fields (map fst d)) /\
  (ask k (set_llm_calls (llm_calls w + 1) w) = (Return v, w1) ->
   valid_response v = false ->
   exists w',
     miss k w = (Return tt, w') /\
     results w' = results w ++ [invalid_response_entry selected_language k v] /\
     dict_get (invalid_response_entry selected_language k v) (text "_source")
       = Some (text "llm_error") /\
     dict_get (invalid_response_entry selected_language k v) (text "main_cat")
       = Some (text "LLM_ERROR") /\
     errors w' = (errors w + 1)%Z /\
     processed_count w' = processed_count w /\
     keyword_groups w' = keyword_groups w /\
     clock_reads w' = clock_reads w /\
     stdout w' = stdout w).
Proof.
  split; [apply valid_response_iff|].
  intros Hask Hv.
  rewrite call_llm_and_store_eq, Hask, Hv.
  pose proof (get_llm_grouping_frame _ _ _ _ _ Hask) as Hw1.
  eexists. split; [reflexivity|].
  cbn [results errors processed_count keyword_groups clock_reads stdout
       set_results set_errors].
  rewrite Hw1. repeat split; reflexivity.
Qed.

(** ** More on the processing run *)

Lemma get_llm_grouping_calls (k l choice tpl : pystr) (w w' : World)
    (r : result pyval) :
  get_llm_grouping k l choice tpl w = (r, w') ->
  vendor_calls w' = vendor_calls w \/
  exists c, vendor_calls w' = vendor_calls w ++ [c].
Proof.
  unfold get_llm_grouping, call_openai_api, call_gemini_api, call_claude_api,
    call_mistral_api, call_api, raise.
  destruct (format tpl k l);
    repeat match goal with
           | |- context [if ?b then _ else _] => destruct b
           end;
    intros H; injection H as <- <-;
    cbn [vendor_calls set_vendor_calls];
    first [left; reflexivity | right; eexists; reflexivity].
Qed.

Lemma field_or_default_nonempty (v : pyval) (key default : pystr) :
  default <> [] -> field_or_default v key default <> [].
Proof.
  intros Hd. unfold field_or_default, str_or.
  destruct v; try exact Hd.
  destruct (strip _); [exact Hd | discriminate].
Qed.

Local Abbreviation step_outcome :=
  (step_outcome selected_language selected_llm custom_prompt).

Lemma process_keyword_outcome (k : pystr) (w : World) :
  exists w', step k w = (Return tt, w') /\ step_outcome k w w'.
Proof.
  rewrite process_keyword_eq, get_existing_grouping_eq.
  destruct (keyword_groups w) as [t|] eqn:Ht.
  2:{ eexists. split; cycle 1.
      - apply step_db_error. exact Ht.
      - reflexivity. }
  destruct (find (same_triple k selected_language
                    (get_prompt_hash custom_prompt)) t) as [r|] eqn:Hf.
  { eexists. split; cycle 1.
    - eapply step_cache_hit; eassumption.
    - reflexivity. }
  cbn [option_map existing_truthy].
  rewrite call_llm_and_store_eq.
  destruct (ask k (set_llm_calls (llm_calls w + 1) w)) as [[v|e] w1] eqn:Hask;
    pose proof (get_llm_grouping_frame _ _ _ _ _ Hask) as Hw1;
    remember (vendor_calls w1) as calls eqn:Hcalls; clear Hcalls; subst w1.
  - destruct (valid_response v) eqn:Hv.
    + cbv zeta. rewrite add_keyword_grouping_eq. cbv zeta.
      cbn [keyword_groups set_vendor_calls set_llm_calls clock_reads].
      rewrite Ht, (proj1 (find_none_existsb _ _) Hf).
      eexists. split; cycle 1.
      * eapply step_stored; eassumption.
      * reflexivity.
    + eexists. split; cycle 1.
      * eapply step_invalid; eassumption.
      * reflexivity.
  - eexists. split; cycle 1.
    + eapply step_model_error; eassumption.
    + reflexivity.
Qed.

(** A property of the keywords done so far and the state, kept by every
    iteration, holds at the end of the loop. *)
Lemma for_each_keeps (I : list pystr -> World -> Prop) (ks : list pystr) :
  (forall done k w w',
     I done w -> In k ks -> step_outcome k w w' -> I (done ++ [k]) w') ->
  forall done w,
    I done w ->
    exists w', for_each ks step w = (Return tt, w') /\ I (done ++ ks) w'.
Proof.
  induction ks as [|k ks IH]; intros Hstep done w Hw.
  - exists w. rewrite app_nil_r. split; [reflexivity | exact Hw].
  - destruct (process_keyword_outcome k w) as (w1 & Hs & Ho).
    destruct (IH (fun done k' w w' Hi Hin => Hstep done k' w w' Hi
                                               (or_intror Hin))
                 (done ++ [k]) w1
                 (Hstep done k w w1 Hw (or_introl eq_refl) Ho))
      as (w' & Hf & Hi).
    exists w'. simpl. unfold bind. rewrite Hs. split; [exact Hf|].
    rewrite <- app_assoc in Hi. exact Hi.
Qed.

Lemma process_keywords_keeps (I : list pystr -> World -> Prop)
    (ks : list pystr) (w : World) :
  (forall done k w w',
     I done w -> In k ks -> step_outcome k w w' -> I (done ++ [k]) w') ->
  I [] (set_cache_hits 0 (set_llm_calls 0 (set_errors 0
          (set_processed_count 0 (set_results [] w))))) ->
  exists w',
    process_keywords selected_language selected_llm custom_prompt ks w
      = (Return tt, w') /\
    I ks w'.
Proof.
  intros Hstep H0. unfold process_keywords, bind, start_run, modify.
  exact (@for_each_keeps I ks Hstep [] _ H0).
Qed.


(** X9. At the end of a run every keyword was counted exactly once as
    processed or as an error; cache hits and model calls together do not
    exceed the number of keywords; every cache hit is a processed keyword;
    and the run made at most one vendor call for each model call it
    counted. *)
Theorem run_counters_add_up (ks : list pystr) (w : World) :
  exists w',
    process_keywords selected_language selected_llm custom_prompt ks w
      = (Return tt, w') /\
    (processed_count w' + errors w' = Z.of_nat (length ks))%Z /\
    (0 <= errors w')%Z /\
    (0 <= cache_hits w' <= processed_count w')%Z /\
    (0 <= llm_calls w')%Z /\
    (cache_hits w' + llm_calls w' <= Z.of_nat (length ks))%Z /\
    (Z.of_nat (length (vendor_calls w'))
       <= Z.of_nat (length (vendor_calls w)) + llm_calls w')%Z.
Proof.
  apply (@process_keywords_keeps
           (fun done w' =>
              (processed_count w' + errors w' = Z.of_nat (length done))%Z /\
              (0 <= errors w')%Z /\
              (0 <= cache_hits w' <= processed_count w')%Z /\
              (0 <= llm_calls w')%Z /\
              (cache_hits w' + llm_calls w' <= Z.of_nat (length done))%Z /\
              (Z.of_nat (length (vendor_calls w'))
                 <= Z.of_nat (length (vendor_calls w)) + llm_calls w')%Z)).
  - intros done k w0 w1 (H1 & H2 & H3 & H4 & H5 & H6) _ Ho.
    rewrite length_app. cbn [length].
    destruct Ho as [Ht|t r Ht Hf|t calls e Ht Hf Hask|t calls v Ht Hf Hask Hv
                    |t calls v Ht Hf Hask Hv];
      try (apply get_llm_grouping_calls in Hask;
           cbn [vendor_calls set_vendor_calls set_llm_calls] in Hask;
           destruct Hask as [->|[c ->]]);
      cbn [processed_count errors cache_hits llm_calls vendor_calls
           set_results set_errors set_processed_count set_cache_hits
           set_llm_calls set_vendor_calls set_keyword_groups set_clock_reads];
      rewrite ?length_app; cbn [length]; lia.
  - cbn. lia.
Qed.

(** X10. A run only appends to the table: the rows that were there stay in
    place, and every row added belongs to a keyword of the batch, carries
    the selected language and the fingerprint of the template, and has
    four category fields that are not empty; no more rows are added than
    model calls were counted. *)
Theorem run_only_appends_normalized_rows
    (ks : list pystr) (w : World) (t : list Row) :
  keyword_groups w = Some t ->
  exists w' added,
    process_keywords selected_language selected_llm custom_prompt ks w
      = (Return tt, w') /\
    keyword_groups w' = Some (t ++ added) /\
    Forall (fun row =>
              In (keyword row) ks /\
              language row = selected_language /\
              prompt_hash row = get_prompt_hash custom_prompt /\
              main_cat row <> [] /\ sub_cat_1 row <> [] /\
              sub_cat_2 row <> [] /\ semantic_theme row <> []) added /\
    (Z.of_nat (length added) <= llm_calls w')%Z.
Proof.
  intros Ht.
  destruct (@process_keywords_keeps
              (fun done w' =>
                 exists added,
                   keyword_groups w' = Some (t ++ added) /\
                   Forall (fun row =>
                             In (keyword row) done /\
                             language row = selected_language /\
                             prompt_hash row = get_prompt_hash custom_prompt /\
                             main_cat row <> [] /\ sub_cat_1 row <> [] /\
                             sub_cat_2 row <> [] /\ semantic_theme row <> [])
                          added /\
                   (0 <= llm_calls w')%Z /\
                   (Z.of_nat (length added) <= llm_calls w')%Z) ks w)
    as (w' & Hrun & added & Hkg & Hall & _ & Hlen).
  - intros done k w0 w1 (added & Hkg & Hall & Hpos & Hlen) _ Ho.
    assert (Hall' : Forall (fun row =>
                       In (keyword row) (done ++ [k]) /\
                       language row = selected_language /\
                       prompt_hash row = get_prompt_hash custom_prompt /\
                       main_cat row <> [] /\ sub_cat_1 row <> [] /\
                       sub_cat_2 row <> [] /\ semantic_theme row <> []) added).
    { eapply Forall_impl; [|exact Hall]. intros row (Hin & Hrest).
      split; [apply in_or_app; left; exact Hin | exact Hrest]. }
    destruct Ho as [Ht0|t0 r Ht0 Hf|t0 calls e Ht0 Hf Hask
                    |t0 calls v Ht0 Hf Hask Hv|t0 calls v Ht0 Hf Hask Hv];
      try (rewrite Hkg in Ht0; discriminate Ht0);
      try (exists added;
           cbn [keyword_groups llm_calls set_results set_errors
                set_processed_count set_cache_hits set_llm_calls
                set_vendor_calls];
           repeat split; try assumption; lia).
    rewrite Hkg in Ht0. injection Ht0 as <-.
    eexists (added ++ [_]).
    cbn [keyword_groups llm_calls set_results set_processed_count
         set_keyword_groups set_clock_reads set_vendor_calls set_llm_calls].
    split; [rewrite app_assoc; reflexivity|].
    split; [|split; [lia | rewrite length_app; cbn [length]; lia]].
    apply Forall_app. split; [exact Hall'|].
    constructor; [|constructor].
    cbn [keyword language prompt_hash main_cat sub_cat_1 sub_cat_2
         semantic_theme new_row].
    split; [apply in_or_app; right; left; reflexivity|].
    do 2 (split; [reflexivity|]).
    repeat split; apply field_or_default_nonempty; discriminate.
  - exists []. rewrite app_nil_r. cbn. repeat split; try assumption;
      try constructor; lia.
  - exists w', added. repeat split; assumption.
Qed.

(** X11. With the table missing, a run calls no model at all: every
    keyword gets a [DB_ERROR] entry carrying the database message and no
    [_source] key, each is counted as an error, and the table stays
    missing. *)
Theorem run_without_table_calls_no_model (ks : list pystr) (w : World) :
  keyword_groups w = None ->
  exists w',
    process_keywords selected_language selected_llm custom_prompt ks w
      = (Return tt, w') /\
    results w' = map (fun k => db_error_entry selected_language k no_such_table)
                     ks /\
    Forall (fun e => dict_get e (text "_source") = None /\
                     dict_get e (text "main_cat") = Some (text "DB_ERROR") /\
                     dict_get e (text "semantic_theme") =
                       Some (text "DB Check Error: no such table: keyword_groups"))
           (results w') /\
    vendor_calls w' = vendor_calls w /\
    llm_calls w' = 0%Z /\
    processed_count w' = 0%Z /\
    errors w' = Z.of_nat (length ks) /\
    keyword_groups w' = None.
Proof.
  intros Ht.
  destruct (@process_keywords_keeps
              (fun done w' =>
                 results w' =
                   map (fun k => db_error_entry selected_language k no_such_table)
                       done /\
                 vendor_calls w' = vendor_calls w /\
                 llm_calls w' = 0%Z /\ processed_count w' = 0%Z /\
                 errors w' = Z.of_nat (length done) /\
                 keyword_groups w' = None) ks w)
    as (w' & Hrun & Hres & Hcalls & Hllm & Hproc & Herr & Hkg).
  - intros done k w0 w1 (Hres & Hcalls & Hllm & Hproc & Herr & Hkg) _ Ho.
    destruct Ho as [Ht0|t0 r Ht0 Hf|t0 calls e Ht0 Hf Hask
                    |t0 calls v Ht0 Hf Hask Hv|t0 calls v Ht0 Hf Hask Hv];
      try (rewrite Hkg in Ht0; discriminate Ht0).
    cbn [results vendor_calls llm_calls processed_count errors keyword_groups
         set_results set_errors].
    rewrite Hres, map_app, length_app. cbn [map length].
    repeat split; try assumption. lia.
  - cbn. repeat split; assumption.
  - exists w'. split; [exact Hrun|]. split; [exact Hres|].
    split; [|repeat split; assumption].
    rewrite Hres. apply Forall_forall. intros e He.
    apply in_map_iff in He as (k & <- & _). repeat split; reflexivity.
Qed.

(** X12. A batch whose keywords are all in the cache makes no model call:
    every entry has source [cache], nothing is counted as an error or a
    model call, and table and vendor calls are as before. *)
Theorem cached_batch_makes_no_model_call
    (ks : list pystr) (w : World) (t : list Row) :
  keyword_groups w = Some t ->
  (forall k, In k ks ->
     existsb (same_triple k selected_language (get_prompt_hash custom_prompt)) t
       = true) ->
  exists w',
    process_keywords selected_language selected_llm custom_prompt ks w
      = (Return tt, w') /\
    Forall (fun e => dict_get e (text "_source") = Some (text "cache"))
           (results w') /\
    length (results w') = length ks /\
    vendor_calls w' = vendor_calls w /\
    llm_calls w' = 0%Z /\ errors w' = 0%Z /\
    cache_hits w' = Z.of_nat (length ks) /\
    processed_count w' = Z.of_nat (length ks) /\
    keyword_groups w' = Some t.
Proof.
  intros Ht Hall.
  apply (@process_keywords_keeps
           (fun done w' =>
              Forall (fun e => dict_get e (text "_source") = Some (text "cache"))
                     (results w') /\
              length (results w') = length done /\
              vendor_calls w' = vendor_calls w /\
              llm_calls w' = 0%Z /\ errors w' = 0%Z /\
              cache_hits w' = Z.of_nat (length done) /\
              processed_count w' = Z.of_nat (length done) /\
              keyword_groups w' = Some t)).
  - intros done k w0 w1 (Hsrc & Hlen & Hcalls & Hllm & Herr & Hhits & Hproc & Hkg)
           Hin Ho.
    specialize (Hall k Hin).
    destruct Ho as [Ht0|t0 r Ht0 Hf|t0 calls e Ht0 Hf Hask
                    |t0 calls v Ht0 Hf Hask Hv|t0 calls v Ht0 Hf Hask Hv];
      rewrite Hkg in Ht0; try discriminate Ht0; injection Ht0 as <-;
      try (apply find_none_existsb in Hf; rewrite Hf in Hall;
           discriminate Hall).
    cbn [results vendor_calls llm_calls processed_count errors cache_hits
         keyword_groups set_results set_processed_count set_cache_hits].
    rewrite !length_app. cbn [length].
    split; [apply Forall_app; split; [exact Hsrc|]; constructor;
            [reflexivity | constructor]|].
    repeat split; try assumption; lia.
  - cbn. repeat split; try assumption; constructor.
Qed.

(** X13. A run keeps the triples of the table unique. *)
Theorem run_keeps_triples_unique (ks : list pystr) (w : World) (t : list Row) :
  keyword_groups w = Some t ->
  unique_triples t ->
  exists w' t',
    process_keywords selected_language selected_llm custom_prompt ks w
      = (Return tt, w') /\
    keyword_groups w' = Some t' /\
    unique_triples t'.
Proof.
  intros Ht Hu.
  destruct (@process_keywords_keeps
              (fun _ w' => exists t', keyword_groups w' = Some t' /\
                                       unique_triples t') ks w)
    as (w' & Hrun & t' & Hkg & Hu').
  - intros done k w0 w1 (t0 & Hkg & Hu0) _ Ho.
    destruct Ho as [Ht0|t1 r Ht0 Hf|t1 calls e Ht0 Hf Hask
                    |t1 calls v Ht0 Hf Hask Hv|t1 calls v Ht0 Hf Hask Hv];
      rewrite Hkg in Ht0; try discriminate Ht0; injection Ht0 as <-;
      try (exists t0; split; [exact Hkg | exact Hu0]).
    eexists. split; [reflexivity|].
    apply insert_keeps_unique; [exact Hu0|].
    apply find_none_existsb, Hf.
  - exists t. split; [exact Ht | exact Hu].
  - exists w', t'. repeat split; assumption.
Qed.


End LoopFacts.

(** ** More on the cache operations *)

(** X4. A store on a missing table raises [OperationalError]: the failure
    is not taken for a duplicate, nothing is printed and the table stays
    missing. *)
Theorem store_without_table_raises (k l T m s1 s2 th : pystr) (w : World) :
  keyword_groups w = None ->
  exists w',
    add_keyword_grouping k l T m s1 s2 th w = (Raise no_such_table, w') /\
    keyword_groups w' = None /\
    stdout w' = stdout w.
Proof.
  intros Ht. rewrite add_keyword_grouping_eq, Ht. cbv zeta.
  eexists. split; [reflexivity|]. split; [exact Ht | reflexivity].
Qed.

(** X5. A store only ever appends to an existing table: every row that
    was there stays, in place and unchanged, and at most one row is added,
    whose columns hold the keyword, the language, the fingerprint, the four
    values given and the time of the call.  When the triple was not yet in
    the table and the call returns, that row has been added. *)
Theorem store_only_appends
    (k l T m s1 s2 th : pystr) (w w' : World) (t : list Row) (r : result unit) :
  keyword_groups w = Some t ->
  add_keyword_grouping k l T m s1 s2 th w = (r, w') ->
  exists added,
    keyword_groups w' = Some (t ++ added) /\
    (added = [] \/
     exists row,
       added = [row] /\
       keyword row = k /\ language row = l /\
       prompt_hash row = get_prompt_hash T /\
       main_cat row = m /\ sub_cat_1 row = s1 /\ sub_cat_2 row = s2 /\
       semantic_theme row = th /\
       date_added row = clock (clock_reads w)) /\
    (existsb (same_triple k l (get_prompt_hash T)) t = false ->
     r = Return tt -> added <> []).
Proof.
  intros Ht. rewrite add_keyword_grouping_eq. cbv zeta. rewrite Ht.
  destruct (existsb (same_triple k l (get_prompt_hash T)) t) eqn:E;
    intros H; injection H as <- <-.
  - exists []. rewrite app_nil_r. split; [exact Ht|].
    split; [left; reflexivity | discriminate].
  - eexists [_]. split; [reflexivity|]. split.
    + right. eexists. split; [reflexivity|].
      cbn [keyword language prompt_hash main_cat sub_cat_1 sub_cat_2
           semantic_theme date_added new_row].
      do 7 (split; [reflexivity|]). reflexivity.
    + intros _ _. discriminate.
Qed.


Lemma same_triple_differs (k l h k' l' h' : pystr) (r : Row) :
  k' <> k \/ l' <> l \/ h' <> h ->
  same_triple k l h r = true -> same_triple k' l' h' r = false.
Proof.
  unfold same_triple. intros Hd H.
  apply andb_true_iff in H as [H Hh]. apply andb_true_iff in H as [Hk Hl].
  apply pystr_eqb_eq in Hk, Hl, Hh.
  destruct Hd as [Hd|[Hd|Hd]].
  - assert (E : pystr_eqb (keyword r) k' = false)
      by (apply pystr_eqb_neq; congruence).
    rewrite E. reflexivity.
  - assert (E : pystr_eqb (language r) l' = false)
      by (apply pystr_eqb_neq; congruence).
    rewrite E, andb_false_r. reflexivity.
  - assert (E : pystr_eqb (prompt_hash r) h' = false)
      by (apply pystr_eqb_neq; congruence).
    rewrite E, andb_false_r. reflexivity.
Qed.

(** X7. A store under one triple does not change what a lookup returns for
    any other keyword, language or fingerprint. *)
Theorem store_leaves_other_triples
    (k l T k' l' T' m s1 s2 th : pystr) (w w' : World) (r : result unit) :
  k' <> k \/ l' <> l \/ get_prompt_hash T' <> get_prompt_hash T ->
  add_keyword_grouping k l T m s1 s2 th w = (r, w') ->
  fst (get_existing_grouping k' l' T' w')
    = fst (get_existing_grouping k' l' T' w).
Proof.
  intros Hd. rewrite add_keyword_grouping_eq. cbv zeta.
  rewrite !get_existing_grouping_eq.
  destruct (keyword_groups w) as [t|] eqn:Ht.
  - destruct (existsb _ t); intros H; injection H as <- <-;
      cbn [keyword_groups set_stdout set_clock_reads set_keyword_groups];
      rewrite ?Ht; [reflexivity|].
    rewrite find_app_other; [reflexivity|].
    eapply same_triple_differs; [exact Hd | apply same_triple_new_row].
  - intros H; injection H as <- <-.
    cbn [keyword_groups set_clock_reads]. rewrite Ht. reflexivity.
Qed.


(** ** Rendering and dispatch *)

Lemma format_scan_text (tpl k l a rest out : pystr) :
  brace_free a ->
  format_scan tpl k l (a ++ rest) InText out =
  format_scan tpl k l rest InText (out ++ a).
Proof.
  intros Ha. revert out. induction Ha as [|c a [Hc1 Hc2] Ha IH]; intros out.
  - rewrite app_nil_r. reflexivity.
  - cbn [app format_scan].
    apply N.eqb_neq in Hc1, Hc2. rewrite Hc1, Hc2.
    rewrite IH, <- app_assoc. reflexivity.
Qed.

(** Rendering a template with the two placeholders substitutes the keyword
    and the language and keeps the surrounding text. *)
Lemma format_substitutes (a b c k l : pystr) :
  brace_free a -> brace_free b -> brace_free c ->
  format (a ++ text "{keyword}" ++ b ++ text "{language}" ++ c) k l =
  Return (a ++ k ++ b ++ l ++ c).
Proof.
  intros Ha Hb Hc. unfold format.
  set (tpl := a ++ text "{keyword}" ++ b ++ text "{language}" ++ c).
  unfold tpl at 2.
  rewrite format_scan_text by assumption.
  change (text "{keyword}" ++ b ++ text "{language}" ++ c)
    with (123 :: 107 :: 101 :: 121 :: 119 :: 111 :: 114 :: 100 :: 125
              :: (b ++ text "{language}" ++ c))%N.
  cbn [format_scan N.eqb Pos.eqb orb app].
  destruct (b ++ text "{language}" ++ c) eqn:E.
  { destruct b; discriminate. }
  rewrite <- E. clear E.
  change (format_field _ k l) with (Some (Return k)).
  cbv iota.
  rewrite format_scan_text by assumption.
  change (text "{language}" ++ c)
    with (123 :: 108 :: 97 :: 110 :: 103 :: 117 :: 97 :: 103 :: 101 :: 125
              :: c)%N.
  cbn [format_scan N.eqb Pos.eqb orb app].
  change (format_field _ k l) with (Some (Return l)).
  cbv iota.
  rewrite <- (app_nil_r c) at 1.
  rewrite format_scan_text by assumption.
  cbn [format_scan]. rewrite <- !app_assoc. reflexivity.
Qed.

(** C10 (amended). [get_llm_grouping] renders the template first.  When
    rendering raises, that exception is raised and no vendor is called.
    When it yields a prompt: each of the four tags calls exactly its own
    vendor function with that prompt, once, and returns what it returns;
    any other tag raises [ValueError("Invalid LLM choice")] and no vendor
    is called. *)
Theorem get_llm_grouping_dispatch (k l choice tpl : pystr) (w : World) :
  (forall e, format tpl k l = Raise e ->
     get_llm_grouping k l choice tpl w = (Raise e, w)) /\
  (forall prompt, format tpl k l = Return prompt ->
     (choice = text "OpenAI" ->
      get_llm_grouping k l choice tpl w =
        (vendor_reply (vendor_calls w) OpenAI prompt,
         set_vendor_calls (vendor_calls w ++ [(OpenAI, prompt)]) w)) /\
     (choice = text "Gemini" ->
      get_llm_grouping k l choice tpl w =
        (vendor_reply (vendor_calls w) Gemini prompt,
         set_vendor_calls (vendor_calls w ++ [(Gemini, prompt)]) w)) /\
     (choice = text "Claude" ->
      get_llm_grouping k l choice tpl w =
        (vendor_reply (vendor_calls w) Claude prompt,
         set_vendor_calls (vendor_calls w ++ [(Claude, prompt)]) w)) /\
     (choice = text "Mistral" ->
      get_llm_grouping k l choice tpl w =
        (vendor_reply (vendor_calls w) Mistral prompt,
         set_vendor_calls (vendor_calls w ++ [(Mistral, prompt)]) w)) /\
     (~ In choice llm_options ->
      get_llm_grouping k l choice tpl w =
        (Raise (ValueError (text "Invalid LLM choice")), w))).
Proof.
  unfold get_llm_grouping. split.
  - intros e ->. reflexivity.
  - intros prompt ->.
    repeat split; try (intros ->; reflexivity).
    intros Hnot.
    assert (H : forall tag, In tag llm_options -> pystr_eqb choice tag = false).
    { intros tag Hin. apply pystr_eqb_neq. intros ->. contradiction. }
    rewrite !H; [reflexivity| | | |]; unfold llm_options; simpl; tauto.
Qed.

(** ** More on rendering *)

Lemma ident_char_plain (c : N) :
  is_ident_char c = true ->
  (c =? 123)%N = false /\ (c =? 125)%N = false /\
  ((c =? 91) || (c =? 58) || (c =? 33))%N = false.
Proof.
  unfold is_ident_char, is_ident_start. intros H.
  repeat split; rewrite ?orb_false_iff; repeat split;
    apply N.eqb_neq; intros ->; discriminate H.
Qed.

Lemma format_scan_field (tpl k l name acc rest out : pystr) :
  forallb is_ident_char name = true ->
  format_scan tpl k l (name ++ 125%N :: rest) (InField acc) out =
  match format_field (acc ++ name) k l with
  | Some (Return value) => format_scan tpl k l rest InText (out ++ value)
  | Some (Raise e) => Raise e
  | None => format_ext tpl k l
  end.
Proof.
  revert acc. induction name as [|c name IH]; intros acc Hn.
  - rewrite app_nil_r. reflexivity.
  - cbn [forallb] in Hn. apply andb_true_iff in Hn as [Hc Hn].
    destruct (ident_char_plain c Hc) as (H1 & H2 & H3).
    cbn [app format_scan]. rewrite H1, H2, H3, IH by exact Hn.
    rewrite <- app_assoc. reflexivity.
Qed.

Lemma format_scan_open (tpl k l s out : pystr) (c : N) :
  (c =? 123)%N = false ->
  format_scan tpl k l (123%N :: c :: s) InText out =
  format_scan tpl k l (c :: s) (InField []) out.
Proof. intros H. cbn [format_scan N.eqb Pos.eqb]. rewrite H. reflexivity. Qed.

(** X15. With a template of the form text, keyword placeholder, text,
    language placeholder, text (the texts free of braces), each of the four
    tags sends exactly the template with the keyword and the language in
    the places of the placeholders, as one vendor call. *)
Theorem prompt_sent_has_keyword_and_language
    (a b c k l choice : pystr) (w : World) :
  brace_free a -> brace_free b -> brace_free c ->
  In choice llm_options ->
  exists v,
    get_llm_grouping k l choice
      (a ++ text "{keyword}" ++ b ++ text "{language}" ++ c) w =
    (vendor_reply (vendor_calls w) v (a ++ k ++ b ++ l ++ c),
     set_vendor_calls (vendor_calls w ++ [(v, a ++ k ++ b ++ l ++ c)]) w).
Proof.
  intros Ha Hb Hc Hin. unfold get_llm_grouping.
  rewrite (format_substitutes k l Ha Hb Hc).
  unfold llm_options in Hin. simpl in Hin.
  destruct Hin as [<-|[<-|[<-|[<-|[]]]]]; eexists; reflexivity.
Qed.

(** X16. A template that lacks a placeholder renders without the value:
    with the keyword placeholder only the language is left out, with the
    language placeholder only the keyword is left out, and a template free
    of braces is sent as it is. *)
Theorem missing_placeholder_is_ignored (a b k l : pystr) :
  brace_free a -> brace_free b ->
  format (a ++ text "{keyword}" ++ b) k l = Return (a ++ k ++ b) /\
  format (a ++ text "{language}" ++ b) k l = Return (a ++ l ++ b) /\
  format a k l = Return a.
Proof.
  intros Ha Hb. unfold format. repeat split.
  - generalize (a ++ text "{keyword}" ++ b) at 1. intros tpl.
    rewrite format_scan_text by exact Ha.
    change (text "{keyword}" ++ b)
      with (123 :: 107 :: (text "eyword" ++ 125 :: b))%N.
    rewrite format_scan_open by reflexivity.
    change (107 :: (text "eyword" ++ 125 :: b))%N
      with (text "keyword" ++ 125%N :: b).
    rewrite format_scan_field by reflexivity.
    change (format_field ([] ++ text "keyword") k l) with (Some (Return k)).
    cbv iota. rewrite <- (app_nil_r b) at 1.
    rewrite format_scan_text by exact Hb.
    cbn [format_scan]. rewrite <- !app_assoc. reflexivity.
  - generalize (a ++ text "{language}" ++ b) at 1. intros tpl.
    rewrite format_scan_text by exact Ha.
    change (text "{language}" ++ b)
      with (123 :: 108 :: (text "anguage" ++ 125 :: b))%N.
    rewrite format_scan_open by reflexivity.
    change (108 :: (text "anguage" ++ 125 :: b))%N
      with (text "language" ++ 125%N :: b).
    rewrite format_scan_field by reflexivity.
    change (format_field ([] ++ text "language") k l) with (Some (Return l)).
    cbv iota. rewrite <- (app_nil_r b) at 1.
    rewrite format_scan_text by exact Hb.
    cbn [format_scan]. rewrite <- !app_assoc. reflexivity.
  - generalize a at 1. intros tpl.
    rewrite <- (app_nil_r a) at 1.
    rewrite format_scan_text by exact Ha. reflexivity.
Qed.

(** X17. Doubled braces are literal braces: a template with a part between
    doubled braces renders with that part between single braces. *)
Theorem doubled_braces_are_literal (a b c k l : pystr) :
  brace_free a -> brace_free b -> brace_free c ->
  format (a ++ text "{{" ++ b ++ text "}}" ++ c) k l =
  Return (a ++ text "{" ++ b ++ text "}" ++ c).
Proof.
  intros Ha Hb Hc. unfold format.
  generalize (a ++ text "{{" ++ b ++ text "}}" ++ c) at 1. intros tpl.
  rewrite format_scan_text by exact Ha.
  change (text "{{" ++ b ++ text "}}" ++ c)
    with (123 :: 123 :: (b ++ text "}}" ++ c))%N.
  cbn [format_scan N.eqb Pos.eqb].
  rewrite format_scan_text by exact Hb.
  change (text "}}" ++ c) with (125 :: 125 :: c)%N.
  cbn [format_scan N.eqb Pos.eqb].
  rewrite <- (app_nil_r c) at 1.
  rewrite format_scan_text by exact Hc.
  cbn [format_scan]. rewrite <- !app_assoc. reflexivity.
Qed.

(** X18. A placeholder with another name (an identifier that is neither
    [keyword] nor [language]) makes the rendering raise [KeyError] for that
    name, whatever follows it; [get_llm_grouping] then raises it for every
    tag, valid or not, and calls no vendor. *)
Theorem misspelt_placeholder_raises_key_error
    (a name rest k l choice : pystr) (c0 : N) (w : World) :
  brace_free a ->
  name <> text "keyword" -> name <> text "language" ->
  hd_error name = Some c0 -> is_ident_start c0 = true ->
  forallb is_ident_char name = true ->
  format (a ++ text "{" ++ name ++ text "}" ++ rest) k l
    = Raise (KeyError_ident name) /\
  get_llm_grouping k l choice (a ++ text "{" ++ name ++ text "}" ++ rest) w
    = (Raise (KeyError_ident name), w).
Proof.
  intros Ha Hk Hl Hhd Hstart Hname.
  assert (Hf : format (a ++ text "{" ++ name ++ text "}" ++ rest) k l
               = Raise (KeyError_ident name)).
  { unfold format.
    generalize (a ++ text "{" ++ name ++ text "}" ++ rest) at 1. intros tpl.
    rewrite format_scan_text by exact Ha.
    destruct name as [|c name']; [discriminate Hhd|].
    injection Hhd as ->.
    change (text "{" ++ (c0 :: name') ++ text "}" ++ rest)
      with (123%N :: c0 :: (name' ++ 125%N :: rest)).
    cbn [forallb] in Hname. apply andb_true_iff in Hname as [Hc Hrest].
    rewrite format_scan_open by apply (ident_char_plain c0 Hc).
    change (c0 :: (name' ++ 125%N :: rest))
      with ((c0 :: name') ++ 125%N :: rest).
    rewrite format_scan_field
      by (cbn [forallb]; rewrite Hc, Hrest; reflexivity).
    cbn [app]. unfold format_field.
    apply pystr_eqb_neq in Hk, Hl. rewrite Hk, Hl, Hstart, Hrest.
    reflexivity. }
  split; [exact Hf|].
  unfold get_llm_grouping. rewrite Hf. reflexivity.
Qed.

(** X19. A template that ends in a single brace after brace-free text does
    not render: the rendering raises [ValueError], and so does
    [get_llm_grouping], without a vendor call. *)
Theorem lone_brace_raises_value_error (a k l choice : pystr) (w : World) :
  brace_free a ->
  format (a ++ text "{") k l
    = Raise (ValueError (text "Single '{' encountered in format string")) /\
  format (a ++ text "}") k l
    = Raise (ValueError (text "Single '}' encountered in format string")) /\
  get_llm_grouping k l choice (a ++ text "{") w
    = (Raise (ValueError (text "Single '{' encountered in format string")), w).
Proof.
  intros Ha.
  assert (H1 : format (a ++ text "{") k l
               = Raise (ValueError (text "Single '{' encountered in format string"))).
  { unfold format. generalize (a ++ text "{") at 1. intros tpl.
    rewrite format_scan_text by exact Ha. reflexivity. }
  split; [exact H1|]. split.
  - unfold format. generalize (a ++ text "}") at 1. intros tpl.
    rewrite format_scan_text by exact Ha. reflexivity.
  - unfold get_llm_grouping. rewrite H1. reflexivity.
Qed.

End Program.

(** ** The fingerprint *)

Lemma hex_digit_lower (d : Z) :
  (0 <= d < 16)%Z -> SHA256.is_lower_hex (SHA256.hex_digit d) = true.
Proof.
  intros H.
  assert (C : (d = 0 \/ d = 1 \/ d = 2 \/ d = 3 \/ d = 4 \/ d = 5 \/ d = 6 \/
               d = 7 \/ d = 8 \/ d = 9 \/ d = 10 \/ d = 11 \/ d = 12 \/
               d = 13 \/ d = 14 \/ d = 15)%Z) by lia.
  repeat (destruct C as [->|C]; [reflexivity|]). subst d. reflexivity.
Qed.

Lemma get_prompt_hash_hex (T : pystr) :
  Forall (fun c => SHA256.is_lower_hex c = true) (get_prompt_hash T).
Proof.
  unfold get_prompt_hash, SHA256.hexdigest.
  apply Forall_map, Forall_forall. intros i _.
  apply hex_digit_lower.
  change 15%Z with (Z.ones 4). rewrite Z.land_ones by lia.
  apply Z.mod_pos_bound. reflexivity.
Qed.

Lemma nodup_map_differs {A B : Type} (f : A -> B) (l : list A) (a b : A) :
  NoDup (map f l) -> In a l -> In b l -> a <> b -> f a <> f b.
Proof.
  induction l as [|x l IH]; intros Hnd Ha Hb Hne Heq; [destruct Ha|].
  cbn [map] in Hnd. inversion Hnd as [|? ? Hx Hl]; subst.
  destruct Ha as [->|Ha], Hb as [->|Hb].
  - exact (Hne eq_refl).
  - apply Hx. rewrite Heq. apply in_map, Hb.
  - apply Hx. rewrite <- Heq. apply in_map, Ha.
  - exact (IH Hl Ha Hb Hne Heq).
Qed.

Lemma tested_fingerprints_differ :
  NoDup (map get_prompt_hash Scenario.tested_templates).
Proof.
  vm_compute.
  repeat (apply NoDup_cons;
          [intros H; repeat (destruct H as [H|H]; [discriminate H|]); exact H|]).
  apply NoDup_nil.
Qed.

(** C5 (amended). The fingerprint is a function of the template text alone:
    equal texts have equal fingerprints, and the fingerprint of a text that
    can be encoded (no lone surrogate) is 64 lowercase hexadecimal digits,
    so distinct texts are not guaranteed distinct fingerprints.  The tested
    templates, which are distinct, have pairwise different fingerprints,
    and the fingerprints of [abc] and of the default template are the
    SHA-256 digests that [hashlib] gives. *)
Theorem fingerprint_deterministic_fixed_length (T1 T2 : pystr) :
  valid_text T1 = true ->
  (T1 = T2 -> get_prompt_hash T1 = get_prompt_hash T2) /\
  length (get_prompt_hash T1) = 64%nat /\
  Forall (fun c => SHA256.is_lower_hex c = true) (get_prompt_hash T1) /\
  (forall Ta Tb,
     In Ta Scenario.tested_templates -> In Tb Scenario.tested_templates ->
     Ta <> Tb -> get_prompt_hash Ta <> get_prompt_hash Tb) /\
  get_prompt_hash (text "abc") =
    text "ba7816bf8f01cfea414140de5dae2223b00361a396177a9cb410ff61f20015ad" /\
  get_prompt_hash Scenario.default_prompt =
    text "dbe246f30e026fd9155a0a30f5a2d6677990f77a5b99106d8ff9d60e9a02169a".
Proof.
  intros _. split; [intros ->; reflexivity|].
  split; [apply get_prompt_hash_length|].
  split; [apply get_prompt_hash_hex|].
  split; [intros Ta Tb; apply nodup_map_differs, tested_fingerprints_differ|].
  split; vm_compute; reflexivity.
Qed.

(* ================================================================== *)
(** * The claims on concrete runs *)

Section Runs.

Import Scenario.

Local Abbreviation reply_shoes := (vendor_always shoes_reply).
Local Abbreviation reply_none := (vendor_always PyNone).
Local Abbreviation reply_flaky :=
  (vendor_failing_on socks_prompt connection_error shoes_reply).
Local Abbreviation lookup k T w := (get_existing_grouping k english T w).
Local Abbreviation store := (add_keyword_grouping clock).
Local Abbreviation ask reply k w :=
  (get_llm_grouping format_ext reply k english (text "OpenAI") short_prompt w).
Local Abbreviation miss reply k w :=
  (call_llm_and_store repr_str format_ext reply clock english (text "OpenAI")
                      short_prompt k w).
Local Abbreviation step reply k w :=
  (process_keyword repr_str format_ext reply clock english (text "OpenAI")
                   short_prompt k w).
Local Abbreviation run reply ks w :=
  (process_keywords repr_str format_ext reply clock english (text "OpenAI")
                    short_prompt ks w).

Ltac evaluate := vm_compute; reflexivity.

(** C1 on a store that holds [shoes]. *)
Lemma cached_keyword_makes_no_model_call_witness :
  lookup shoes short_prompt cached
    = (Return (Some (dict_of_row shoes_row)), cached) /\
  exists w',
    step reply_shoes shoes cached = (Return tt, w') /\
    vendor_calls w' = [] /\ llm_calls w' = 0%Z /\ cache_hits w' = 1%Z.
Proof.
  assert (H : lookup shoes short_prompt cached
              = (Return (Some (dict_of_row shoes_row)), cached)) by evaluate.
  split; [exact H|].
  destruct (@cached_keyword_makes_no_model_call repr_str format_ext reply_shoes
              clock english (text "OpenAI") short_prompt shoes cached _ _ H)
    as (t & r & w' & _ & _ & _ & _ & Hstep & _ & Hcalls & Hllm & Hhits & _).
  exists w'. exact (conj Hstep (conj Hcalls (conj Hllm Hhits))).
Defined.


(** C3 on a fresh store. *)
Lemma store_then_lookup_round_trip_witness :
  exists w',
    store shoes english short_prompt (text "Apparel") (text "Footwear")
          (text "Detail") (text "Buying running shoes") fresh = (Return tt, w') /\
    stdout w' = stdout fresh /\
    lookup shoes short_prompt w' =
      (Return (Some [(text "main_cat", text "Apparel");
                     (text "sub_cat_1", text "Footwear");
                     (text "sub_cat_2", text "Detail");
                     (text "semantic_theme", text "Buying running shoes")]), w').
Proof.
  exists (snd (store shoes english short_prompt (text "Apparel")
                     (text "Footwear") (text "Detail")
                     (text "Buying running shoes") fresh)).
  assert (H1 : store shoes english short_prompt (text "Apparel")
                     (text "Footwear") (text "Detail")
                     (text "Buying running shoes") fresh
               = (Return tt,
                  snd (store shoes english short_prompt (text "Apparel")
                             (text "Footwear") (text "Detail")
                             (text "Buying running shoes") fresh)))
    by evaluate.
  split; [exact H1|]. split; [reflexivity|].
  exact (proj1 (@store_then_lookup_round_trip repr_str format_ext reply_shoes
                  clock english (text "OpenAI") short_prompt shoes _ _ _ _
                  fresh _ H1 eq_refl)).
Defined.

(** C4 (amended) for two templates with different fingerprints. *)
Lemma lookup_under_other_fingerprint_witness :
  get_prompt_hash short_prompt <> get_prompt_hash other_prompt /\
  lookup shoes other_prompt fresh = (Return None, fresh) /\
  exists w1,
    store shoes english short_prompt (text "Apparel") (text "Footwear")
          (text "Detail") (text "Buying running shoes") fresh = (Return tt, w1) /\
    lookup shoes other_prompt w1 = (Return None, w1).
Proof.
  assert (Hh : get_prompt_hash short_prompt <> get_prompt_hash other_prompt)
    by (vm_compute; discriminate).
  split; [exact Hh|]. split; [reflexivity|].
  exists (snd (store shoes english short_prompt (text "Apparel")
                     (text "Footwear") (text "Detail")
                     (text "Buying running shoes") fresh)).
  assert (H1 : store shoes english short_prompt (text "Apparel")
                     (text "Footwear") (text "Detail")
                     (text "Buying running shoes") fresh
               = (Return tt,
                  snd (store shoes english short_prompt (text "Apparel")
                             (text "Footwear") (text "Detail")
                             (text "Buying running shoes") fresh)))
    by evaluate.
  split; [exact H1|].
  exact (@lookup_under_other_fingerprint clock shoes english short_prompt
           other_prompt _ _ _ _ fresh _ _ Hh eq_refl H1).
Defined.

(** C5 (amended) on one template. *)
Lemma fingerprint_deterministic_fixed_length_witness :
  valid_text short_prompt = true /\
  length (get_prompt_hash short_prompt) = 64%nat /\
  get_prompt_hash short_prompt <> get_prompt_hash other_prompt.
Proof.
  split; [reflexivity|].
  destruct (@fingerprint_deterministic_fixed_length short_prompt short_prompt
              eq_refl) as (_ & Hlen & _ & Hdiff & _).
  split; [exact Hlen|].
  apply Hdiff.
  - right; left; reflexivity.
  - right; right; right; left; reflexivity.
  - intros H. vm_compute in H. discriminate H.
Defined.


(** C7 (amended) on a vendor that answers [None]. *)
Lemma response_validation_witness :
  exists w1,
    ask reply_none shoes (set_llm_calls (llm_calls fresh + 1) fresh)
      = (Return PyNone, w1) /\
    valid_response PyNone = false /\
    exists w',
      miss reply_none shoes fresh = (Return tt, w') /\
      results w' = [invalid_response_entry repr_str english shoes PyNone] /\
      errors w' = 1%Z /\
      keyword_groups w' = Some [] /\
      clock_reads w' = 0%nat.
Proof.
  exists (snd (ask reply_none shoes (set_llm_calls (llm_calls fresh + 1) fresh))).
  assert (H1 : ask reply_none shoes (set_llm_calls (llm_calls fresh + 1) fresh)
               = (Return PyNone,
                  snd (ask reply_none shoes
                           (set_llm_calls (llm_calls fresh + 1) fresh))))
    by evaluate.
  assert (H2 : valid_response PyNone = false) by reflexivity.
  split; [exact H1|]. split; [exact H2|].
  destruct (proj2 (@response_validation repr_str format_ext reply_none clock
                     english (text "OpenAI") short_prompt PyNone shoes fresh _)
                  H1 H2)
    as (w' & Hmiss & Hres & _ & _ & Herr & _ & Htab & Hclock & _).
  exists w'.
  exact (conj Hmiss (conj Hres (conj Herr (conj Htab Hclock)))).
Defined.


(** C9 (amended) on a store of three records. *)
Lemma get_all_data_lists_everything_newest_first_witness :
  keyword_groups stocked = Some [shoes_row; socks_row; boots_row] /\
  exists ordered,
    get_all_data stocked =
      (Return {| columns :=
                   [text "main_cat"; text "sub_cat_1"; text "sub_cat_2";
                    text "keyword"; text "language"; text "semantic_theme";
                    text "date_added"];
                 rows :=
                   map (fun r => [main_cat r; sub_cat_1 r; sub_cat_2 r;
                                  keyword r; language r; semantic_theme r;
                                  date_added r]) ordered |},
       stocked) /\
    Permutation [shoes_row; socks_row; boots_row] ordered /\
    StronglySorted not_older ordered.
Proof.
  split; [reflexivity|].
  destruct (@get_all_data_lists_everything_newest_first stocked _ eq_refl)
    as (ordered & Hget & Hperm & Hsorted & _).
  exists ordered. exact (conj Hget (conj Hperm Hsorted)).
Defined.

(** C10 (amended) for the tag [OpenAI] and a template that renders. *)
Lemma get_llm_grouping_dispatch_witness :
  format format_ext short_prompt socks english = Return socks_prompt /\
  get_llm_grouping format_ext reply_shoes socks english (text "OpenAI")
                   short_prompt fresh
    = (Return shoes_reply,
       set_vendor_calls [(OpenAI, socks_prompt)] fresh) /\
  ~ In (text "Llama") llm_options /\
  get_llm_grouping format_ext reply_shoes socks english (text "Llama")
                   short_prompt fresh
    = (Raise (ValueError (text "Invalid LLM choice")), fresh).
Proof.
  assert (Hf : format format_ext short_prompt socks english = Return socks_prompt)
    by evaluate.
  assert (Hn : ~ In (text "Llama") llm_options).
  { intros H. vm_compute in H. repeat destruct H as [H|H]; try discriminate H.
    exact H. }
  split; [exact Hf|].
  split.
  - exact (proj1 (proj2 (@get_llm_grouping_dispatch repr_str format_ext reply_shoes
                           socks english (text "OpenAI") short_prompt fresh)
                        socks_prompt Hf) eq_refl).
  - split; [exact Hn|].
    exact (proj2 (proj2 (proj2 (proj2
             (proj2 (@get_llm_grouping_dispatch repr_str format_ext reply_shoes
                       socks english (text "Llama") short_prompt fresh)
                    socks_prompt Hf)))) Hn).
Defined.

(** ** Where the claims as written fail *)

(** C4 as written: a lookup under any other template is not found.  It
    would make the fingerprint injective. *)
Lemma lookup_under_other_template_counterexample :
  ~ (forall (k l T1 T2 m s1 s2 th : pystr) (w1 : World),
       T1 <> T2 ->
       add_keyword_grouping clock k l T1 m s1 s2 th fresh = (Return tt, w1) ->
       get_existing_grouping k l T2 w1 = (Return None, w1)).
Proof.
  intros H. apply get_prompt_hash_collides. intros T1 T2 Hne Heq.
  destruct (@lookup_after_first_store clock shoes english T1 [] [] [] []
              fresh [] eq_refl eq_refl) as (w1 & Hadd & Hlook).
  specialize (H shoes english T1 T2 [] [] [] [] w1 Hne Hadd).
  rewrite <- (lookup_depends_on_fingerprint shoes english w1 Heq) in H.
  rewrite Hlook in H. discriminate H.
Qed.

(** C5 as written: the fingerprint is deterministic and injective. *)
Lemma fingerprint_injective_counterexample :
  ~ ((forall T : pystr, get_prompt_hash T = get_prompt_hash T) /\
     (forall T1 T2 : pystr,
        T1 <> T2 -> get_prompt_hash T1 <> get_prompt_hash T2)).
Proof.
  intros [_ H]. exact (get_prompt_hash_collides H).
Qed.

(** C7 as written: accepted if and only if the mapping has exactly the four
    required fields.  A response with a fifth key is accepted. *)
Lemma exactly_four_fields_counterexample :
  valid_response five_key_reply = true /\
  ~ (exists d, five_key_reply = PyDict d /\
               Permutation (map fst d) required_fields).
Proof.
  split; [reflexivity|].
  intros (d & E & P). injection E as <-.
  apply Permutation_length in P. discriminate P.
Qed.

(** C9 as written: the most recently created record comes first.  Two
    records stored within the same second carry the same [date_added], and
    the one created first is listed first. *)
Lemma same_second_counterexample :
  exists w1 w2 first second df,
    add_keyword_grouping Samples.same_second shoes english short_prompt
      (text "Apparel") (text "Footwear") (text "Detail")
      (text "Buying running shoes") fresh = (Return tt, w1) /\
    keyword_groups w1 = Some [first] /\
    add_keyword_grouping Samples.same_second socks english short_prompt
      (text "Apparel") (text "Hosiery") (text "Wool")
      (text "Buying warm socks") w1 = (Return tt, w2) /\
    keyword_groups w2 = Some [first; second] /\
    get_all_data w2 = (Return df, w2) /\
    map (fun r => nth 3 r []) (rows df) = [shoes; socks] /\
    rows df <> map export_row (rev [first; second]).
Proof.
  set (w1 := snd (add_keyword_grouping Samples.same_second shoes english
                    short_prompt (text "Apparel") (text "Footwear")
                    (text "Detail") (text "Buying running shoes") fresh)).
  set (w2 := snd (add_keyword_grouping Samples.same_second socks english
                    short_prompt (text "Apparel") (text "Hosiery")
                    (text "Wool") (text "Buying warm socks") w1)).
  exists w1, w2,
    {| id := 1; keyword := shoes; language := english;
       prompt_hash := get_prompt_hash short_prompt;
       main_cat := text "Apparel"; sub_cat_1 := text "Footwear";
       sub_cat_2 := text "Detail";
       semantic_theme := text "Buying running shoes";
       date_added := text "2025-04-10 09:30:10" |},
    {| id := 2; keyword := socks; language := english;
       prompt_hash := get_prompt_hash short_prompt;
       main_cat := text "Apparel"; sub_cat_1 := text "Hosiery";
       sub_cat_2 := text "Wool"; semantic_theme := text "Buying warm socks";
       date_added := text "2025-04-10 09:30:10" |},
    (match fst (get_all_data w2) with
     | Return df => df
     | Raise _ => {| columns := []; rows := [] |}
     end).
  do 6 (split; [evaluate|]).
  vm_compute. discriminate.
Qed.

(** C10 as written: a tag outside the four raises [ValueError].  With a
    template that does not render, the rendering error is raised. *)
Lemma invalid_choice_counterexample :
  ~ In (text "Llama") llm_options /\
  get_llm_grouping format_ext reply_shoes shoes english (text "Llama")
                   misspelt_prompt fresh
    = (Raise (KeyError_ident (text "lang")), fresh) /\
  exn_class (KeyError_ident (text "lang")) <> text "ValueError".
Proof.
  split.
  - intros H. vm_compute in H. repeat destruct H as [H|H]; try discriminate H.
    exact H.
  - split; [evaluate | vm_compute; discriminate].
Qed.

(** ** Further checks on concrete inputs *)

Example sha256_abc :
  get_prompt_hash (text "abc") =
  text "ba7816bf8f01cfea414140de5dae2223b00361a396177a9cb410ff61f20015ad".
Proof. evaluate. Qed.

Example sha256_empty :
  get_prompt_hash (text "") =
  text "e3b0c44298fc1c149afbf4c8996fb92427ae41e4649b934ca495991b7852b855".
Proof. evaluate. Qed.

Example default_prompt_renders :
  format format_ext default_prompt shoes english =
  Return (
    text "Analyze the following keyword: 'running shoes' (Language: English)." ++ nl ++
    text "1. Determine the core semantic theme or user intent behind searching for this keyword." ++ nl ++
    text "2. Categorize the keyword into a 3-level hierarchy: Main Category, Sub Category 1, Sub Category 2. These categories should reflect the semantic grouping. Ensure all levels are populated, using 'General' or 'N/A' if a level isn't clearly distinct, but avoid leaving them blank." ++ nl ++
    text "3. Provide the output ONLY in the following JSON format, ensuring no extra text before or after the JSON block:" ++ nl ++
    text "{" ++ nl ++
    text "  " ++ dq ++ text "main_cat" ++ dq ++ text ": " ++ dq ++ text "..." ++ dq ++ text "," ++ nl ++
    text "  " ++ dq ++ text "sub_cat_1" ++ dq ++ text ": " ++ dq ++ text "..." ++ dq ++ text "," ++ nl ++
    text "  " ++ dq ++ text "sub_cat_2" ++ dq ++ text ": " ++ dq ++ text "..." ++ dq ++ text "," ++ nl ++
    text "  " ++ dq ++ text "semantic_theme" ++ dq ++ text ": " ++ dq ++ text "..." ++ dq ++ nl ++
    text "}").
Proof. evaluate. Qed.

Example distinct_templates_distinct_fingerprints :
  get_prompt_hash default_prompt <> get_prompt_hash short_prompt /\
  get_prompt_hash short_prompt <> get_prompt_hash other_prompt /\
  get_prompt_hash short_prompt <> get_prompt_hash misspelt_prompt /\
  get_prompt_hash default_prompt <> get_prompt_hash (default_prompt ++ text " ").
Proof.
  split; [vm_compute; discriminate|].
  split; [vm_compute; discriminate|].
  split; vm_compute; discriminate.
Qed.

(** The scenario of the specification: the first run misses the cache,
    calls the model and stores; the second run hits the cache with the same
    category fields and calls no model. *)
Example second_run_is_a_cache_hit :
  exists w1 w2,
    run reply_shoes [shoes] fresh = (Return tt, w1) /\
    results w1 =
      [grouping_entry english shoes (text "Apparel") (text "Footwear")
                      (text "Detail") (text "Buying running shoes")
                      (text "llm")] /\
    length (vendor_calls w1) = 1%nat /\
    run reply_shoes [shoes] w1 = (Return tt, w2) /\
    results w2 =
      [grouping_entry english shoes (text "Apparel") (text "Footwear")
                      (text "Detail") (text "Buying running shoes")
                      (text "cache")] /\
    vendor_calls w2 = vendor_calls w1 /\
    llm_calls w2 = 0%Z /\ cache_hits w2 = 1%Z.
Proof.
  exists (snd (run reply_shoes [shoes] fresh)),
         (snd (run reply_shoes [shoes] (snd (run reply_shoes [shoes] fresh)))).
  do 7 (split; [evaluate|]). evaluate.
Qed.

(** Three keywords, the vendor failing for the second: three entries, the
    first and third from the model, the second the error entry. *)
Example three_keywords_second_fails :
  exists w',
    run reply_flaky [shoes; socks; boots] fresh = (Return tt, w') /\
    map (fun e => dict_get e (text "_source")) (results w')
      = [Some (text "llm"); Some (text "llm_error"); Some (text "llm")] /\
    map (fun e => dict_get e (text "semantic_theme")) (results w')
      = [Some (text "Buying running shoes");
         Some (text "API/Processing Error: Connection error.");
         Some (text "Buying running shoes")] /\
    errors w' = 1%Z /\ llm_calls w' = 3%Z /\ processed_count w' = 2%Z.
Proof.
  exists (snd (run reply_flaky [shoes; socks; boots] fresh)).
  do 5 (split; [evaluate|]). evaluate.
Qed.

(** The newest of three stored records comes first. *)
Example export_is_newest_first :
  exists df,
    get_all_data stocked = (Return df, stocked) /\
    map (fun r => nth 3 r []) (rows df) = [socks; boots; shoes].
Proof.
  exists {| columns := export_columns;
            rows := map export_row [socks_row; boots_row; shoes_row] |}.
  split; evaluate.
Qed.

End Runs.

(* ================================================================== *)
(** * utils.py and the input section *)

Section UtilsFacts.

Import Utils.

Variable read_keyword_column : list Z -> result (list pystr).
Variable is_value_error : exn -> bool.

Local Abbreviation parse := (parse_keywords read_keyword_column is_value_error).
Local Abbreviation from_paste :=
  (keywords_from_paste read_keyword_column is_value_error).
Local Abbreviation from_upload :=
  (keywords_from_upload read_keyword_column is_value_error).

Lemma nonempty_iff (s : pystr) : nonempty s = true <-> s <> [].
Proof. destruct s; simpl; split; congruence. Qed.

Lemma seen_iff (kw : pystr) (seen : list pystr) :
  existsb (pystr_eqb kw) seen = true <-> In kw seen.
Proof.
  rewrite existsb_exists. split.
  - intros (x & Hin & E). apply pystr_eqb_eq in E. subst. exact Hin.
  - intros Hin. exists kw. split; [exact Hin | apply pystr_eqb_refl].
Qed.

Lemma fromkeys_in (seen l : list pystr) (x : pystr) :
  In x (fromkeys seen l) <-> In x l /\ ~ In x seen.
Proof.
  revert seen. induction l as [|kw l IH]; intros seen; simpl; [tauto|].
  destruct (existsb (pystr_eqb kw) seen) eqn:E.
  - apply seen_iff in E. rewrite IH. split.
    + intros [H1 H2]. tauto.
    + intros [[->|H1] H2]; [contradiction | tauto].
  - assert (Hn : ~ In kw seen).
    { intros H. apply seen_iff in H. congruence. }
    simpl. rewrite IH. simpl. split.
    + intros [->|[H1 H2]]; [tauto|]. split; [tauto|]. intros H. apply H2. tauto.
    + intros [[->|H1] H2]; [tauto|].
      destruct (list_eq_dec N.eq_dec kw x) as [->|Hne]; [tauto|].
      right. split; [exact H1|]. intros [H|H]; [congruence | contradiction].
Qed.

Lemma fromkeys_nodup (seen l : list pystr) : NoDup (fromkeys seen l).
Proof.
  revert seen. induction l as [|kw l IH]; intros seen; simpl; [constructor|].
  destruct (existsb (pystr_eqb kw) seen); [apply IH|].
  constructor; [|apply IH].
  rewrite fromkeys_in. simpl. tauto.
Qed.

Lemma fromkeys_fixed (seen l : list pystr) :
  NoDup l -> (forall x, In x l -> ~ In x seen) -> fromkeys seen l = l.
Proof.
  revert seen. induction l as [|kw l IH]; intros seen Hnd Hs; simpl;
    [reflexivity|].
  inversion Hnd as [|? ? Hnot Hnd']; subst.
  destruct (existsb (pystr_eqb kw) seen) eqn:E.
  - apply seen_iff in E. exfalso. exact (Hs kw (or_introl eq_refl) E).
  - f_equal. apply IH; [exact Hnd'|].
    intros x Hx [<-|H]; [contradiction|]. exact (Hs x (or_intror Hx) H).
Qed.

Lemma lstrip_fixed (s : pystr) :
  (forall c rest, s = c :: rest -> is_whitespace c = false) -> lstrip s = s.
Proof.
  destruct s as [|c s]; intros H; simpl; [reflexivity|].
  rewrite (H c s eq_refl). reflexivity.
Qed.

Lemma strip_fixed (s : pystr) :
  (forall c rest, s = c :: rest -> is_whitespace c = false) ->
  (forall init c, s = init ++ [c] -> is_whitespace c = false) ->
  strip s = s.
Proof.
  intros Hfirst Hlast. unfold strip, rstrip.
  rewrite (lstrip_fixed Hfirst).
  rewrite lstrip_fixed; [apply rev_involutive|].
  intros c rest Hr. apply (Hlast (rev rest) c).
  rewrite <- (rev_involutive s), Hr. reflexivity.
Qed.

Lemma strip_idempotent (s : pystr) : strip (strip s) = strip s.
Proof.
  destruct (strip_spec s) as (_ & _ & _ & _ & _ & Hfirst & Hlast).
  apply strip_fixed; assumption.
Qed.

(** X20. Whatever the source, the keywords returned hold no string twice
    and no empty string, and an error message comes with an empty list. *)
Theorem parsed_keywords_are_distinct_and_not_empty
    (src : source) (ks : list pystr) (err : option pystr) :
  parse src = (ks, err) ->
  NoDup ks /\
  Forall (fun k => k <> []) ks /\
  (err <> None -> ks = []).
Proof.
  unfold parse_keywords. intros H.
  assert (Hclean : forall l, Forall (fun k => k <> []) l ->
            NoDup (fromkeys [] l) /\ Forall (fun k => k <> []) (fromkeys [] l)).
  { intros l Hl. split; [apply fromkeys_nodup|].
    rewrite Forall_forall in *. intros x Hx. apply fromkeys_in in Hx.
    apply Hl, Hx. }
  destruct src as [[content|]|input_data|].
  - destruct (read_keyword_column content) as [keywords|e].
    + injection H as <- <-.
      destruct (Hclean (filter nonempty keywords)) as [H1 H2].
      { apply Forall_forall. intros x Hx. apply filter_In in Hx as [_ Hx].
        apply nonempty_iff, Hx. }
      split; [exact H1|]. split; [exact H2 | congruence].
    + destruct (is_value_error e); injection H as <- <-;
        (split; [constructor|]); (split; [constructor|]);
        intros _; reflexivity.
  - injection H as <- <-.
    split; [constructor|]. split; [constructor | congruence].
  - destruct (nonempty input_data).
    + injection H as <- <-.
      destruct (Hclean (map strip
                  (filter (fun kw => nonempty (strip kw))
                          (splitlines input_data)))) as [H1 H2].
      { apply Forall_forall. intros x Hx.
        apply in_map_iff in Hx as (line & <- & Hl).
        apply filter_In in Hl as [_ Hl]. apply nonempty_iff, Hl. }
      split; [exact H1|]. split; [exact H2 | congruence].
    + injection H as <- <-.
      split; [constructor|]. split; [constructor | congruence].
  - injection H as <- <-.
    split; [constructor|]. split; [constructor | congruence].
Qed.

(** X21. From pasted text the keywords are exactly the trimmed lines that
    are not blank: each keyword is the trimmed text of a line, every line
    that is not blank gives a keyword, each keyword is itself trimmed, and
    no error is reported. *)
Theorem pasted_keywords_are_the_trimmed_lines
    (input_data : pystr) (ks : list pystr) (err : option pystr) :
  parse (Text input_data) = (ks, err) ->
  err = None /\
  Forall (fun k => strip k = k) ks /\
  forall k,
    In k ks <->
    exists line, In line (splitlines input_data) /\ strip line = k /\ k <> [].
Proof.
  unfold parse_keywords.
  destruct (nonempty input_data) eqn:E; intros H; injection H as <- <-.
  - split; [reflexivity|]. split.
    + apply Forall_forall. intros k Hk. apply fromkeys_in in Hk as [Hk _].
      apply in_map_iff in Hk as (line & <- & _). apply strip_idempotent.
    + intros k. rewrite fromkeys_in, in_map_iff. split.
      * intros [(line & <- & Hl) _]. apply filter_In in Hl as [Hl Hne].
        exists line. split; [exact Hl|]. split; [reflexivity|].
        apply nonempty_iff, Hne.
      * intros (line & Hl & <- & Hne). split; [|intros []].
        exists line. split; [reflexivity|]. apply filter_In.
        split; [exact Hl | apply nonempty_iff, Hne].
  - destruct input_data; [|discriminate E].
    split; [reflexivity|]. split; [constructor|].
    intros k. simpl. split; [intros [] | intros (line & [] & _)].
Qed.

Lemma splitlines_from_line (k rest cur : pystr) :
  Forall (fun c => is_linebreak c = false) k ->
  splitlines_from (k ++ 10%N :: rest) cur =
  (cur ++ k) :: splitlines_from rest [].
Proof.
  intros Hk. revert cur. induction Hk as [|c k Hc Hk IH]; intros cur.
  - rewrite app_nil_r. reflexivity.
  - cbn [app splitlines_from].
    assert (H13 : (c =? 13)%N = false).
    { apply N.eqb_neq. intros ->. discriminate Hc. }
    rewrite H13, Hc, IH, <- app_assoc. reflexivity.
Qed.

Lemma splitlines_from_last (k cur : pystr) :
  Forall (fun c => is_linebreak c = false) k ->
  cur ++ k <> [] ->
  splitlines_from k cur = [cur ++ k].
Proof.
  intros Hk. revert cur. induction Hk as [|c k Hc Hk IH]; intros cur Hne.
  - rewrite app_nil_r in *. simpl. destruct cur; [contradiction | reflexivity].
  - cbn [splitlines_from].
    assert (H13 : (c =? 13)%N = false).
    { apply N.eqb_neq. intros ->. discriminate Hc. }
    rewrite H13, Hc, IH, <- app_assoc; [reflexivity|].
    rewrite <- app_assoc. exact Hne.
Qed.

Lemma splitlines_join (ks : list pystr) :
  Forall (fun k => k <> [] /\ Forall (fun c => is_linebreak c = false) k) ks ->
  splitlines (join [10%N] ks) = ks.
Proof.
  unfold splitlines. induction 1 as [|k ks [Hne Hk] Hks IH]; [reflexivity|].
  destruct ks as [|k2 ks].
  - simpl. apply (@splitlines_from_last k [] Hk). exact Hne.
  - change (join [10%N] (k :: k2 :: ks))
      with (k ++ 10%N :: join [10%N] (k2 :: ks)).
    rewrite splitlines_from_line by exact Hk. rewrite IH. reflexivity.
Qed.

(** X22. Round trip: keywords that are distinct, not empty, trimmed and
    free of line breaks, pasted one per line, are parsed back as the same
    list in the same order. *)
Theorem pasted_lines_round_trip (ks : list pystr) :
  NoDup ks ->
  Forall (fun k => k <> [] /\ strip k = k /\
                   Forall (fun c => is_linebreak c = false) k) ks ->
  parse (Text (join [10%N] ks)) = (ks, None).
Proof.
  intros Hnd Hall. unfold parse_keywords.
  destruct ks as [|k0 ks0] eqn:Eks; [reflexivity|]. rewrite <- Eks in *.
  assert (Hj : nonempty (join [10%N] ks) = true).
  { rewrite Eks in *. inversion Hall as [|? ? (Hne & _) _]; subst.
    destruct k0; [contradiction|]. destruct ks0; reflexivity. }
  rewrite Hj, splitlines_join.
  2:{ eapply Forall_impl; [|exact Hall]. intros k (H1 & _ & H3). tauto. }
  assert (Hf : filter (fun kw => nonempty (strip kw)) ks = ks).
  { apply forallb_filter_id. apply forallb_forall. intros k Hk.
    rewrite Forall_forall in Hall. destruct (Hall k Hk) as (H1 & H2 & _).
    rewrite H2. apply nonempty_iff, H1. }
  assert (Hm : map strip ks = ks).
  { rewrite <- (map_id ks) at 2. apply map_ext_in. intros k Hk.
    rewrite Forall_forall in Hall. apply (Hall k Hk). }
  rewrite Hf, Hm, fromkeys_fixed; [reflexivity | exact Hnd | intros x _ []].
Qed.

(** X23. The paste area yields at most 250 keywords: the first 250 of the
    distinct trimmed lines, or all of them when there are no more. *)
Theorem paste_is_cut_at_250 (pasted_keywords : pystr) :
  (length (from_paste pasted_keywords) <= 250)%nat /\
  NoDup (from_paste pasted_keywords) /\
  from_paste pasted_keywords
    = firstn 250 (fst (parse (Text pasted_keywords))).
Proof.
  unfold keywords_from_paste, parse_keywords.
  destruct (nonempty pasted_keywords) eqn:E.
  - cbn [fst].
    set (ks := fromkeys [] (map strip
                 (filter (fun kw => nonempty (strip kw))
                         (splitlines pasted_keywords)))).
    assert (Hnd : NoDup ks) by apply fromkeys_nodup.
    destruct (250 <? length ks)%nat eqn:El.
    + split; [apply firstn_le_length|]. split; [|reflexivity].
      rewrite <- (firstn_skipn 250 ks) in Hnd.
      exact (NoDup_app_remove_r _ _ Hnd).
    + apply Nat.ltb_ge in El. rewrite firstn_all2 by exact El.
      split; [exact El|]. split; [exact Hnd | reflexivity].
  - split; [simpl; lia|]. split; [constructor | reflexivity].
Qed.

(** X24. An upload that cannot be read yields no keywords, and an upload
    that can be read yields the distinct non-empty entries of its column in
    their order of first appearance. *)
Theorem upload_keywords (content : list Z) :
  (forall e, read_keyword_column content = Raise e ->
     from_upload (Some content) = [] /\
     exists msg, snd (parse (Csv (Some content))) = Some msg) /\
  (forall column, read_keyword_column content = Return column ->
     from_upload (Some content) = fromkeys [] (filter nonempty column) /\
     NoDup (from_upload (Some content)) /\
     forall k, In k (from_upload (Some content)) <-> In k column /\ k <> []).
Proof.
  unfold keywords_from_upload, parse_keywords. split.
  - intros e ->. destruct (is_value_error e); cbn [snd];
      (split; [reflexivity | eexists; reflexivity]).
  - intros column ->. split; [reflexivity|]. split; [apply fromkeys_nodup|].
    intros k. rewrite fromkeys_in, filter_In, nonempty_iff. simpl. tauto.
Qed.

End UtilsFacts.

Section LanguageFacts.

Import Utils.

Variable pycountry_pairs : result (list (pystr * pystr)).
Variable is_lookup_error : exn -> bool.

Lemma insert_by_name_perm (x : pystr * pystr) (l : list (pystr * pystr)) :
  Permutation (x :: l) (insert_by_name x l).
Proof.
  induction l as [|y l IH]; simpl; [apply Permutation_refl|].
  destruct (str_leb (fst x) (fst y)); [apply Permutation_refl|].
  eapply perm_trans; [apply perm_swap | apply perm_skip, IH].
Qed.

Lemma sort_by_name_perm (l : list (pystr * pystr)) :
  Permutation l (sort_by_name l).
Proof.
  induction l as [|x l IH]; simpl; [constructor|].
  eapply perm_trans; [apply perm_skip, IH | apply insert_by_name_perm].
Qed.

Lemma remove_first_perm (x : pystr) (names : list pystr) :
  In x names -> Permutation names (x :: remove_first x names).
Proof.
  induction names as [|n names IH]; simpl; [intros []|].
  destruct (pystr_eqb n x) eqn:E.
  - apply pystr_eqb_eq in E. subst. intros _. apply Permutation_refl.
  - intros [->|Hin]; [rewrite pystr_eqb_refl in E; discriminate|].
    eapply perm_trans; [apply perm_skip, IH, Hin | apply perm_swap].
Qed.

(** X25. The language list always starts with English.  When the language
    database cannot be read it is the six-language fallback; otherwise it
    holds the names of the database, each as often as there, except that
    English is moved to the front (and added when the database lacks it),
    and nothing is printed. *)
Theorem language_list_starts_with_english (w : World) :
  exists names w',
    get_language_list pycountry_pairs is_lookup_error w
      = (Return (text "English" :: names), w') /\
    (forall e, pycountry_pairs = Raise e ->
       text "English" :: names = default_list /\
       length (stdout w') = S (length (stdout w))) /\
    (forall langs, pycountry_pairs = Return langs ->
       w' = w /\
       (In (text "English") (map fst langs) ->
        Permutation (map fst langs) (text "English" :: names)) /\
       (~ In (text "English") (map fst langs) ->
        Permutation (map fst langs) names)).
Proof.
  unfold get_language_list.
  destruct pycountry_pairs as [langs|e].
  - assert (Hp : Permutation (map fst langs) (map fst (sort_by_name langs)))
      by apply Permutation_map, sort_by_name_perm.
    destruct (existsb (pystr_eqb (text "English"))
                      (map fst (sort_by_name langs))) eqn:E.
    + eexists _, w. split; [reflexivity|]. split; [discriminate|].
      intros ? [= <-]. split; [reflexivity|]. split.
      * intros _. eapply perm_trans; [exact Hp|].
        apply remove_first_perm.
        apply existsb_exists in E as (x & Hx & Ex).
        apply pystr_eqb_eq in Ex. subst. exact Hx.
      * intros Hn. exfalso. apply Hn.
        apply existsb_exists in E as (x & Hx & Ex).
        apply pystr_eqb_eq in Ex. subst.
        apply (Permutation_in _ (Permutation_sym Hp)), Hx.
    + eexists _, w. split; [reflexivity|]. split; [discriminate|].
      intros ? [= <-]. split; [reflexivity|]. split.
      * intros Hin. exfalso.
        assert (Hs : existsb (pystr_eqb (text "English"))
                             (map fst (sort_by_name langs)) = true).
        { apply existsb_exists. exists (text "English").
          split; [apply (Permutation_in _ Hp), Hin | apply pystr_eqb_refl]. }
        congruence.
      * intros _. exact Hp.
  - destruct (is_lookup_error e); unfold bind, print, modify, ret;
      eexists _, _; (split; [reflexivity|]);
      (split; [|discriminate]);
      intros ? _; (split; [reflexivity|]);
      cbn [stdout set_stdout]; rewrite length_app; simpl; lia.
Qed.

End LanguageFacts.

(* ================================================================== *)
(** * llm_utils.py: the vendor wrappers *)

Section WrapperFacts.

Import LLMUtils.

Variable client_setup : vendor -> result unit.
Variable request : vendor -> pystr -> result pystr.
Variable json_loads : pystr -> result pyval.
Variable content_unbound : pystr.

Local Abbreviation braced_api :=
  (call_braced_api client_setup request json_loads).
Local Abbreviation openai_api :=
  (call_openai_api client_setup request json_loads content_unbound).

Local Open Scope Z_scope.

Lemma find_from_absent (c : N) (s : pystr) (i : Z) :
  ~ In c s -> find_from c s i = -1.
Proof.
  revert i. induction s as [|x s IH]; intros i Hn; simpl; [reflexivity|].
  destruct (x =? c)%N eqn:E.
  - apply N.eqb_eq in E. exfalso. apply Hn. left. exact E.
  - apply IH. intros H. apply Hn. right. exact H.
Qed.

Lemma find_from_first (c : N) (pre rest : pystr) (i : Z) :
  ~ In c pre ->
  find_from c (pre ++ c :: rest) i = i + Z.of_nat (length pre).
Proof.
  revert i. induction pre as [|x pre IH]; intros i Hn; simpl.
  - rewrite N.eqb_refl. lia.
  - destruct (x =? c)%N eqn:E.
    + apply N.eqb_eq in E. exfalso. apply Hn. left. exact E.
    + rewrite IH by (intros H; apply Hn; right; exact H). lia.
Qed.

Lemma rfind_from_absent (c : N) (s : pystr) (i last : Z) :
  ~ In c s -> rfind_from c s i last = last.
Proof.
  revert i. induction s as [|x s IH]; intros i Hn; simpl; [reflexivity|].
  destruct (x =? c)%N eqn:E.
  - apply N.eqb_eq in E. exfalso. apply Hn. left. exact E.
  - apply IH. intros H. apply Hn. right. exact H.
Qed.

Lemma rfind_from_last (c : N) (s post : pystr) (i last : Z) :
  ~ In c post ->
  rfind_from c (s ++ c :: post) i last = i + Z.of_nat (length s).
Proof.
  intros Hn. revert i last. induction s as [|x s IH]; intros i last; simpl.
  - rewrite N.eqb_refl, rfind_from_absent by exact Hn. lia.
  - rewrite IH. lia.
Qed.

Lemma slice_middle (pre mid post : pystr) :
  slice (pre ++ mid ++ post) (Z.of_nat (length pre))
        (Z.of_nat (length pre) + Z.of_nat (length mid)) = mid.
Proof.
  unfold slice.
  replace (Z.of_nat (length pre) + Z.of_nat (length mid)
           - Z.of_nat (length pre)) with (Z.of_nat (length mid)) by lia.
  rewrite !Nat2Z.id, skipn_app, skipn_all, Nat.sub_diag. simpl.
  rewrite firstn_app, firstn_all, Nat.sub_diag. simpl. apply app_nil_r.
Qed.

Lemma find_nonneg (c : N) (s : pystr) (i : Z) :
  0 <= i -> find_from c s i = -1 \/ 0 <= find_from c s i.
Proof.
  revert i. induction s as [|x s IH]; intros i Hi; simpl; [left; reflexivity|].
  destruct (x =? c)%N; [right; exact Hi | apply IH; lia].
Qed.

(** X26. Once its client is set up, the wrapper shared by Gemini, Claude
    and Mistral never raises: it returns what [json.loads] gave for some
    text, or [None]; it records the call and touches nothing else of the
    state but the printed output. *)
Theorem braced_wrapper_never_raises
    (v : vendor) (who api prompt : pystr) (w : World) :
  client_setup v = Return tt ->
  exists r w',
    braced_api v who api prompt w = (Return r, w') /\
    (r = PyNone \/ exists fragment, json_loads fragment = Return r) /\
    vendor_calls w' = vendor_calls w ++ [(v, prompt)] /\
    keyword_groups w' = keyword_groups w /\
    results w' = results w /\
    clock_reads w' = clock_reads w.
Proof.
  intros Hs. unfold call_braced_api, bind, try_except, record_call, modify,
    lift, print, ret. rewrite Hs.
  destruct (request v prompt) as [content|e].
  - destruct (negb (find 123 content =? -1)
              && negb (rfind 125 content + 1 =? -1)).
    + destruct (json_loads (strip (slice content (find 123 content)
                                         (rfind 125 content + 1))))
        as [parsed|e] eqn:Ej.
      * eexists _, _. split; [reflexivity|].
        split; [right; eexists; exact Ej|]. repeat split; reflexivity.
      * eexists _, _. split; [reflexivity|].
        split; [left; reflexivity|]. repeat split; reflexivity.
    + eexists _, _. split; [reflexivity|].
      split; [left; reflexivity|]. repeat split; reflexivity.
  - eexists _, _. split; [reflexivity|].
    split; [left; reflexivity|]. repeat split; reflexivity.
Qed.

(** X27. When the answer has no opening brace the wrapper returns [None]
    and prints that no JSON was found, with the answer; [json.loads] is
    not consulted. *)
Theorem braced_wrapper_without_brace
    (v : vendor) (who api prompt content : pystr) (w : World) :
  client_setup v = Return tt ->
  request v prompt = Return content ->
  ~ In 123%N content ->
  braced_api v who api prompt w =
  (Return PyNone,
   set_stdout (stdout w ++ [text "Could not find JSON in " ++ who
                            ++ text " response: " ++ content])
              (set_vendor_calls (vendor_calls w ++ [(v, prompt)]) w)).
Proof.
  intros Hs Hr Hn. unfold call_braced_api, bind, try_except, record_call,
    modify, lift, print, ret. rewrite Hs, Hr.
  unfold find. rewrite find_from_absent by exact Hn. reflexivity.
Qed.

(** X28. An answer wrapped in other text is unwrapped: the wrapper gives
    [json.loads] exactly the span from the first opening brace to the last
    closing brace and returns its value, printing nothing. *)
Theorem braced_wrapper_unwraps
    (v : vendor) (who api prompt pre body post : pystr) (parsed : pyval)
    (w : World) :
  client_setup v = Return tt ->
  request v prompt = Return (pre ++ 123%N :: body ++ 125%N :: post) ->
  ~ In 123%N pre -> ~ In 125%N post ->
  json_loads (123%N :: body ++ [125%N]) = Return parsed ->
  braced_api v who api prompt w =
  (Return parsed, set_vendor_calls (vendor_calls w ++ [(v, prompt)]) w).
Proof.
  intros Hs Hr Hpre Hpost Hj.
  unfold call_braced_api, bind, try_except, record_call, modify, lift, print,
    ret. rewrite Hs, Hr.
  unfold find, rfind. rewrite find_from_first by exact Hpre.
  replace (pre ++ 123%N :: body ++ 125%N :: post)
    with ((pre ++ 123%N :: body) ++ 125%N :: post)
    by (rewrite <- app_assoc; reflexivity).
  rewrite rfind_from_last by exact Hpost.
  replace ((pre ++ 123%N :: body) ++ 125%N :: post)
    with (pre ++ (123%N :: body ++ [125%N]) ++ post)
    by (rewrite <- !app_assoc; simpl; rewrite <- app_assoc; reflexivity).
  replace (0 + Z.of_nat (length (pre ++ 123%N :: body)) + 1)
    with (Z.of_nat (length pre)
          + Z.of_nat (length (123%N :: body ++ [125%N])))
    by (rewrite !length_app; simpl; rewrite length_app; simpl; lia).
  replace (0 + Z.of_nat (length pre)) with (Z.of_nat (length pre)) by lia.
  assert (C1 : (Z.of_nat (length pre) =? -1) = false)
    by (apply Z.eqb_neq; lia).
  assert (C2 : (Z.of_nat (length pre)
                + Z.of_nat (length (123%N :: body ++ [125%N])) =? -1) = false)
    by (apply Z.eqb_neq; lia).
  rewrite C1, C2. cbn [negb andb].
  rewrite slice_middle.
  rewrite strip_fixed.
  - rewrite Hj. reflexivity.
  - intros c rest H. injection H as <- _. reflexivity.
  - intros init c H.
    change (123%N :: body ++ [125%N]) with ((123%N :: body) ++ [125%N]) in H.
    apply app_inj_tail in H as [_ <-]. reflexivity.
Qed.

(** X29. When the OpenAI request itself fails, [call_openai_api] does not
    return [None]: after printing the error it raises [UnboundLocalError],
    because the second attempt reads [content] before it was bound. *)
Theorem openai_request_failure_raises (prompt : pystr) (e : exn) (w : World) :
  client_setup OpenAI = Return tt ->
  request OpenAI prompt = Raise e ->
  openai_api prompt w =
  (Raise (UnboundLocalError content_unbound),
   set_stdout (stdout w ++ [text "Error calling OpenAI API: " ++ exn_str e])
              (set_vendor_calls (vendor_calls w ++ [(OpenAI, prompt)]) w)).
Proof.
  intros Hs Hr. unfold call_openai_api, bind, record_call, modify, lift.
  rewrite Hs, Hr. reflexivity.
Qed.

(** X30. Once the OpenAI answer has arrived the wrapper never raises; when
    the trimmed answer is valid JSON it returns the parsed value and
    prints nothing, and when it is not and holds no opening brace it
    returns [None]. *)
Theorem openai_answer_never_raises (prompt content : pystr) (w : World) :
  client_setup OpenAI = Return tt ->
  request OpenAI prompt = Return content ->
  exists r w',
    openai_api prompt w = (Return r, w') /\
    vendor_calls w' = vendor_calls w ++ [(OpenAI, prompt)] /\
    (forall parsed, json_loads (strip content) = Return parsed ->
       r = parsed /\ stdout w' = stdout w) /\
    (forall e, json_loads (strip content) = Raise e -> ~ In 123%N content ->
       r = PyNone).
Proof.
  intros Hs Hr. unfold call_openai_api, bind, record_call, modify, lift.
  rewrite Hs, Hr.
  destruct (json_loads (strip content)) as [parsed|e] eqn:Ej.
  - eexists _, _. split; [reflexivity|]. split; [reflexivity|].
    split; [|discriminate]. intros ? [= <-]. split; reflexivity.
  - unfold openai_second_attempt, print, modify, try_except, ret, lift, bind.
    destruct (negb (find 123 content =? -1)
              && negb (rfind 125 content + 1 =? -1)) eqn:Ec.
    + destruct (json_loads (slice content (find 123 content)
                                  (rfind 125 content + 1))) as [parsed|e2];
        eexists _, _; (split; [reflexivity|]); (split; [reflexivity|]);
        (split; [discriminate|]); intros ? _ Hn; exfalso;
        unfold find in Ec; rewrite find_from_absent in Ec by exact Hn;
        discriminate Ec.
    + eexists _, _. split; [reflexivity|]. split; [reflexivity|].
      split; [discriminate|]. intros; reflexivity.
Qed.

End WrapperFacts.

(* ================================================================== *)
(** * The further properties on concrete inputs *)

Section MoreRuns.

Import Scenario Samples.

Local Abbreviation reply_shoes := (vendor_always shoes_reply).
Local Abbreviation store := (add_keyword_grouping clock).
Local Abbreviation run ks w :=
  (process_keywords repr_str format_ext reply_shoes clock english
                    (text "OpenAI") short_prompt ks w).
Local Abbreviation step k w :=
  (process_keyword repr_str format_ext reply_shoes clock english
                   (text "OpenAI") short_prompt k w).
Local Abbreviation ask k w :=
  (get_llm_grouping format_ext reply_shoes k english (text "OpenAI")
                    short_prompt w).
Local Abbreviation parse := (Utils.parse_keywords column_of is_value_error).

Ltac evaluate := vm_compute; reflexivity.
Ltac differ := let H := fresh in intros H; vm_compute in H; discriminate H.
Ltac no_braces :=
  unfold brace_free; simpl;
  repeat (apply Forall_cons; [split; discriminate|]); apply Forall_nil.

Lemma store_without_table_raises_witness :
  keyword_groups no_table = None /\
  exists w',
    store shoes english short_prompt (text "Apparel") (text "Footwear")
          (text "Detail") (text "Shoes") no_table = (Raise no_such_table, w') /\
    keyword_groups w' = None /\ stdout w' = stdout no_table.
Proof.
  split; [reflexivity|].
  exact (@store_without_table_raises clock shoes english short_prompt
           (text "Apparel") (text "Footwear") (text "Detail") (text "Shoes")
           no_table eq_refl).
Defined.

Lemma store_only_appends_witness :
  keyword_groups fresh = Some [] /\
  exists added,
    keyword_groups
      (snd (store shoes english short_prompt (text "Apparel") (text "Footwear")
                  (text "Detail") (text "Shoes") fresh))
    = Some ([] ++ added) /\
    added <> [].
Proof.
  split; [reflexivity|].
  destruct (@store_only_appends clock shoes english short_prompt
              (text "Apparel") (text "Footwear") (text "Detail")
              (text "Shoes") fresh _ [] _ eq_refl (surjective_pairing _))
    as (added & Hkg & _ & Hnew).
  exists added. split; [exact Hkg|].
  apply Hnew; [reflexivity | evaluate].
Defined.


Lemma store_leaves_other_triples_witness :
  (socks <> shoes \/ english <> english \/
   get_prompt_hash short_prompt <> get_prompt_hash short_prompt) /\
  fst (get_existing_grouping socks english short_prompt
         (snd (store shoes english short_prompt (text "Apparel")
                     (text "Footwear") (text "Detail") (text "Shoes") fresh)))
  = fst (get_existing_grouping socks english short_prompt fresh).
Proof.
  assert (Hd : socks <> shoes \/ english <> english \/
               get_prompt_hash short_prompt <> get_prompt_hash short_prompt)
    by (left; differ).
  split; [exact Hd|].
  exact (@store_leaves_other_triples clock shoes english short_prompt socks
           english short_prompt (text "Apparel") (text "Footwear")
           (text "Detail") (text "Shoes") fresh _ _ Hd (surjective_pairing _)).
Defined.


Lemma run_only_appends_normalized_rows_witness :
  keyword_groups cached = Some [shoes_row] /\
  exists w' added,
    run [shoes; socks] cached = (Return tt, w') /\
    keyword_groups w' = Some ([shoes_row] ++ added) /\
    (Z.of_nat (length added) <= llm_calls w')%Z.
Proof.
  split; [reflexivity|].
  destruct (@run_only_appends_normalized_rows repr_str format_ext reply_shoes
              clock english (text "OpenAI") short_prompt [shoes; socks] cached
              [shoes_row] eq_refl)
    as (w' & added & Hrun & Hkg & _ & Hlen).
  exists w', added. exact (conj Hrun (conj Hkg Hlen)).
Defined.

Lemma run_without_table_calls_no_model_witness :
  keyword_groups no_table = None /\
  exists w',
    run [shoes; socks] no_table = (Return tt, w') /\
    vendor_calls w' = [] /\ errors w' = 2%Z.
Proof.
  split; [reflexivity|].
  destruct (@run_without_table_calls_no_model repr_str format_ext reply_shoes
              clock english (text "OpenAI") short_prompt [shoes; socks]
              no_table eq_refl)
    as (w' & Hrun & _ & _ & Hcalls & _ & _ & Herr & _).
  exists w'. exact (conj Hrun (conj Hcalls Herr)).
Defined.

Lemma cached_batch_makes_no_model_call_witness :
  keyword_groups cached = Some [shoes_row] /\
  (forall k, In k [shoes] ->
     existsb (same_triple k english (get_prompt_hash short_prompt)) [shoes_row]
       = true) /\
  exists w',
    run [shoes] cached = (Return tt, w') /\
    vendor_calls w' = [] /\ llm_calls w' = 0%Z /\ cache_hits w' = 1%Z.
Proof.
  assert (Hall : forall k, In k [shoes] ->
            existsb (same_triple k english (get_prompt_hash short_prompt))
                    [shoes_row] = true).
  { intros k [<-|[]]. evaluate. }
  split; [reflexivity|]. split; [exact Hall|].
  destruct (@cached_batch_makes_no_model_call repr_str format_ext reply_shoes
              clock english (text "OpenAI") short_prompt [shoes] cached
              [shoes_row] eq_refl Hall)
    as (w' & Hrun & _ & _ & Hcalls & Hllm & _ & Hhits & _).
  exists w'. exact (conj Hrun (conj Hcalls (conj Hllm Hhits))).
Defined.

Lemma run_keeps_triples_unique_witness :
  keyword_groups fresh = Some [] /\ unique_triples [] /\
  exists w' t',
    run [shoes; socks; shoes] fresh = (Return tt, w') /\
    keyword_groups w' = Some t' /\ unique_triples t'.
Proof.
  assert (Hu : unique_triples []) by (intros k l h; simpl; lia).
  split; [reflexivity|]. split; [exact Hu|].
  exact (@run_keeps_triples_unique repr_str format_ext reply_shoes clock
           english (text "OpenAI") short_prompt [shoes; socks; shoes] fresh []
           eq_refl Hu).
Defined.


Lemma prompt_sent_has_keyword_and_language_witness :
  brace_free (text "Classify '") /\ brace_free (text "' (") /\
  brace_free (text ")") /\ In (text "Claude") llm_options /\
  exists v,
    get_llm_grouping format_ext reply_shoes socks english (text "Claude")
      (text "Classify '" ++ text "{keyword}" ++ text "' (" ++ text "{language}"
       ++ text ")") fresh =
    (reply_shoes (vendor_calls fresh) v
       (text "Classify '" ++ socks ++ text "' (" ++ english ++ text ")"),
     set_vendor_calls
       (vendor_calls fresh ++
        [(v, text "Classify '" ++ socks ++ text "' (" ++ english ++ text ")")])
       fresh).
Proof.
  assert (Ha : brace_free (text "Classify '")) by no_braces.
  assert (Hb : brace_free (text "' (")) by no_braces.
  assert (Hc : brace_free (text ")")) by no_braces.
  assert (Hin : In (text "Claude") llm_options) by (simpl; tauto).
  split; [exact Ha|]. split; [exact Hb|]. split; [exact Hc|].
  split; [exact Hin|].
  exact (@prompt_sent_has_keyword_and_language format_ext reply_shoes _ _ _
           socks english _ fresh Ha Hb Hc Hin).
Defined.

Lemma missing_placeholder_is_ignored_witness :
  brace_free (text "Classify '") /\ brace_free (text "'") /\
  format format_ext (text "Classify '" ++ text "{keyword}" ++ text "'")
         socks english
    = Return (text "Classify '" ++ socks ++ text "'").
Proof.
  assert (Ha : brace_free (text "Classify '")) by no_braces.
  assert (Hb : brace_free (text "'")) by no_braces.
  split; [exact Ha|]. split; [exact Hb|].
  exact (proj1 (@missing_placeholder_is_ignored format_ext _ _ socks english
                  Ha Hb)).
Defined.

Lemma doubled_braces_are_literal_witness :
  brace_free (text "Answer as ") /\ brace_free (text "main_cat: ...") /\
  brace_free (text ".") /\
  format format_ext
    (text "Answer as " ++ text "{{" ++ text "main_cat: ..." ++ text "}}"
     ++ text ".") socks english
  = Return (text "Answer as " ++ text "{" ++ text "main_cat: ..." ++ text "}"
            ++ text ".").
Proof.
  assert (Ha : brace_free (text "Answer as ")) by no_braces.
  assert (Hb : brace_free (text "main_cat: ...")) by no_braces.
  assert (Hc : brace_free (text ".")) by no_braces.
  split; [exact Ha|]. split; [exact Hb|]. split; [exact Hc|].
  exact (@doubled_braces_are_literal format_ext _ _ _ socks english Ha Hb Hc).
Defined.

Lemma misspelt_placeholder_raises_key_error_witness :
  brace_free (text "Classify '") /\
  text "lang" <> text "keyword" /\ text "lang" <> text "language" /\
  hd_error (text "lang") = Some 108%N /\ is_ident_start 108 = true /\
  forallb is_ident_char (text "lang") = true /\
  get_llm_grouping format_ext reply_shoes socks english (text "Gemini")
    (text "Classify '" ++ text "{" ++ text "lang" ++ text "}" ++ text "'")
    fresh
  = (Raise (KeyError_ident (text "lang")), fresh).
Proof.
  assert (Ha : brace_free (text "Classify '")) by no_braces.
  assert (Hk : text "lang" <> text "keyword") by differ.
  assert (Hl : text "lang" <> text "language") by differ.
  split; [exact Ha|]. split; [exact Hk|]. split; [exact Hl|].
  split; [reflexivity|]. split; [reflexivity|]. split; [reflexivity|].
  exact (proj2 (@misspelt_placeholder_raises_key_error format_ext reply_shoes
                  _ (text "lang") (text "'") socks english (text "Gemini")
                  108%N fresh Ha Hk Hl eq_refl eq_refl eq_refl)).
Defined.

Lemma lone_brace_raises_value_error_witness :
  brace_free (text "Classify ") /\
  get_llm_grouping format_ext reply_shoes socks english (text "Mistral")
    (text "Classify " ++ text "{") fresh
  = (Raise (ValueError (text "Single '{' encountered in format string")),
     fresh).
Proof.
  assert (Ha : brace_free (text "Classify ")) by no_braces.
  split; [exact Ha|].
  exact (proj2 (proj2 (@lone_brace_raises_value_error format_ext reply_shoes
                         _ socks english (text "Mistral") fresh Ha))).
Defined.

Lemma parsed_keywords_are_distinct_and_not_empty_witness :
  parse (Utils.Text pasted)
    = (fst (parse (Utils.Text pasted)), snd (parse (Utils.Text pasted))) /\
  NoDup (fst (parse (Utils.Text pasted))).
Proof.
  split; [apply surjective_pairing|].
  exact (proj1 (@parsed_keywords_are_distinct_and_not_empty column_of
                  is_value_error (Utils.Text pasted) _ _
                  (surjective_pairing _))).
Defined.

Lemma pasted_keywords_are_the_trimmed_lines_witness :
  parse (Utils.Text pasted)
    = (fst (parse (Utils.Text pasted)), snd (parse (Utils.Text pasted))) /\
  snd (parse (Utils.Text pasted)) = None /\
  Forall (fun k => strip k = k) (fst (parse (Utils.Text pasted))).
Proof.
  split; [apply surjective_pairing|].
  destruct (@pasted_keywords_are_the_trimmed_lines column_of is_value_error
              pasted _ _ (surjective_pairing _)) as (Herr & Htrim & _).
  exact (conj Herr Htrim).
Defined.

Lemma pasted_lines_round_trip_witness :
  NoDup [shoes; socks] /\
  Forall (fun k => k <> [] /\ strip k = k /\
                   Forall (fun c => Utils.is_linebreak c = false) k)
         [shoes; socks] /\
  parse (Utils.Text (join [10%N] [shoes; socks])) = ([shoes; socks], None).
Proof.
  assert (Hnd : NoDup [shoes; socks]).
  { apply NoDup_cons; [intros [H|[]]; vm_compute in H; discriminate H|].
    apply NoDup_cons; [intros []|]. apply NoDup_nil. }
  assert (Hall : Forall (fun k => k <> [] /\ strip k = k /\
                   Forall (fun c => Utils.is_linebreak c = false) k)
                        [shoes; socks]).
  { apply Forall_cons; [|apply Forall_cons; [|apply Forall_nil]];
      (split; [differ|]); (split; [evaluate|]);
      vm_compute; repeat (apply Forall_cons; [reflexivity|]);
      apply Forall_nil. }
  split; [exact Hnd|]. split; [exact Hall|].
  exact (@pasted_lines_round_trip column_of is_value_error _ Hnd Hall).
Defined.

Lemma braced_wrapper_never_raises_witness :
  setup_ok Claude = Return tt /\
  exists r w',
    LLMUtils.call_claude_api setup_ok answer_fenced loads_braced socks fresh
      = (Return r, w') /\
    vendor_calls w' = vendor_calls fresh ++ [(Claude, socks)] /\
    keyword_groups w' = keyword_groups fresh.
Proof.
  split; [reflexivity|].
  destruct (@braced_wrapper_never_raises setup_ok answer_fenced loads_braced
              Claude (text "Claude") (text "Claude API") socks fresh eq_refl)
    as (r & w' & Hrun & _ & Hcalls & Hkg & _).
  exists r, w'. exact (conj Hrun (conj Hcalls Hkg)).
Defined.

Lemma braced_wrapper_without_brace_witness :
  setup_ok Gemini = Return tt /\
  answer_refusal Gemini socks = Return refusal /\
  ~ In 123%N refusal /\
  LLMUtils.call_gemini_api setup_ok answer_refusal loads_braced socks fresh =
  (Return PyNone,
   set_stdout (stdout fresh ++ [text "Could not find JSON in " ++ text "Gemini"
                                ++ text " response: " ++ refusal])
              (set_vendor_calls (vendor_calls fresh ++ [(Gemini, socks)])
                                fresh)).
Proof.
  assert (Hn : ~ In 123%N refusal).
  { vm_compute. intros H.
    repeat (destruct H as [H|H]; [discriminate H|]). exact H. }
  split; [reflexivity|]. split; [reflexivity|]. split; [exact Hn|].
  exact (@braced_wrapper_without_brace setup_ok answer_refusal loads_braced
           Gemini (text "Gemini") (text "Gemini API") socks refusal fresh
           eq_refl eq_refl Hn).
Defined.

Lemma braced_wrapper_unwraps_witness :
  setup_ok Mistral = Return tt /\
  answer_fenced Mistral socks
    = Return ((text "```json" ++ [10%N]) ++ 123%N
              :: (dq ++ text "main_cat" ++ dq ++ text ": 1") ++ 125%N
              :: ([10%N] ++ text "```")) /\
  ~ In 123%N (text "```json" ++ [10%N]) /\
  ~ In 125%N ([10%N] ++ text "```") /\
  loads_braced (123%N :: (dq ++ text "main_cat" ++ dq ++ text ": 1") ++ [125%N])
    = Return (PyDict [(text "main_cat", PyInt 1)]) /\
  LLMUtils.call_mistral_api setup_ok answer_fenced loads_braced socks fresh =
  (Return (PyDict [(text "main_cat", PyInt 1)]),
   set_vendor_calls (vendor_calls fresh ++ [(Mistral, socks)]) fresh).
Proof.
  assert (Hr : answer_fenced Mistral socks
    = Return ((text "```json" ++ [10%N]) ++ 123%N
              :: (dq ++ text "main_cat" ++ dq ++ text ": 1") ++ 125%N
              :: ([10%N] ++ text "```"))) by evaluate.
  assert (Hpre : ~ In 123%N (text "```json" ++ [10%N])).
  { vm_compute. intros H.
    repeat (destruct H as [H|H]; [discriminate H|]). exact H. }
  assert (Hpost : ~ In 125%N ([10%N] ++ text "```")).
  { vm_compute. intros H.
    repeat (destruct H as [H|H]; [discriminate H|]). exact H. }
  assert (Hj : loads_braced
                 (123%N :: (dq ++ text "main_cat" ++ dq ++ text ": 1")
                  ++ [125%N])
               = Return (PyDict [(text "main_cat", PyInt 1)])) by evaluate.
  split; [reflexivity|]. split; [exact Hr|]. split; [exact Hpre|].
  split; [exact Hpost|]. split; [exact Hj|].
  exact (@braced_wrapper_unwraps setup_ok answer_fenced loads_braced Mistral
           (text "Mistral (OpenAI Compatible)")
           (text "Mistral API (OpenAI Compatible)") socks _ _ _ _ fresh
           eq_refl Hr Hpre Hpost Hj).
Defined.

Lemma openai_request_failure_raises_witness :
  setup_ok OpenAI = Return tt /\
  answer_fails OpenAI socks = Raise connection_error /\
  fst (LLMUtils.call_openai_api setup_ok answer_fails loads_braced
         unbound_message socks fresh)
  = Raise (LLMUtils.UnboundLocalError unbound_message).
Proof.
  split; [reflexivity|]. split; [reflexivity|].
  exact (f_equal fst
           (@openai_request_failure_raises setup_ok answer_fails loads_braced
              unbound_message socks connection_error fresh eq_refl eq_refl)).
Defined.

Lemma openai_answer_never_raises_witness :
  setup_ok OpenAI = Return tt /\
  answer_braced OpenAI socks = Return braced /\
  exists r w',
    LLMUtils.call_openai_api setup_ok answer_braced loads_braced
      unbound_message socks fresh = (Return r, w') /\
    vendor_calls w' = vendor_calls fresh ++ [(OpenAI, socks)].
Proof.
  split; [reflexivity|]. split; [reflexivity|].
  destruct (@openai_answer_never_raises setup_ok answer_braced loads_braced
              unbound_message socks braced fresh eq_refl eq_refl)
    as (r & w' & Hrun & Hcalls & _).
  exists r, w'. exact (conj Hrun Hcalls).
Defined.

End MoreRuns.
